(** * DirChat: a shallow embedding of [streamlit_refer.py] and [test.py]

    Both files are Streamlit scripts: [main] is run from the top on every
    user interaction, reads the widget values of that run, mutates the
    session state (which survives from one run to the next, also when the
    run ends in [st.stop()] or in an exception) and draws on the page.

    The embedding keeps that shape.  A run is a computation in a small
    state-and-exception monad over a [world] made of the session state and
    the list of things the run did (page output and calls into libraries).
    The libraries the scripts call (langchain loaders, the text splitter,
    tiktoken, FAISS, the retrieval chain) are an interface, [Lib]; nothing
    is assumed about what they return.  Name lookup follows Python: a
    global name is bound when the module imports or defines it, and using
    an unbound one raises [NameError] at the moment it is evaluated. *)

From Stdlib Require Import String Ascii List Bool Arith Lia.
Import ListNotations.
Open Scope string_scope.

(** ** Python values, exceptions and the script monad *)

Module Py.

Inductive exn : Type :=
| NameError (name : string)
| TypeError (msg : string)
| KeyError (key : string)
| AttributeError (msg : string)
| LibraryError (callee : string) (msg : string).

(** What a call into a library gives back. *)
Inductive result (A : Type) : Type :=
| Ok (a : A)
| Err (e : exn).
Arguments Ok {A} a.
Arguments Err {A} e.

(** How a run of the script ends: normally, at [st.stop()], or in an
    exception nobody catches (neither script has a [try]). *)
Inductive outcome (A : Type) : Type :=
| Done (a : A)
| Stopped
| Raised (e : exn).
Arguments Done {A} a.
Arguments Stopped {A}.
Arguments Raised {A} e.

(** [langchain.docstore.document.Document]: text and a metadata dict. *)
Record Document : Type := mkDocument {
  page_content : string;
  metadata : list (string * string)
}.

(** What [get_text] collects: [streamlit_refer.py] only ever appends
    documents, [test.py] appends the bare CSV text as a [str]. *)
Inductive pyobj : Type :=
| PDoc (d : Document)
| PStr (s : string).

(** An entry of [st.session_state.messages]: a dict with the two keys
    [role] and [content]. *)
Record message : Type := mkMessage {
  role : string;
  content : string
}.

(** A file handed over by [st.file_uploader]. *)
Record UploadedFile : Type := mkUploadedFile {
  name : string;
  type : string;
  getbuffer : string
}.

(** What a run does that can be seen from outside. *)
Inductive event : Type :=
| EvCall (callee : string)
| EvPage (what : string) (text : string)
| EvWarning (msg : string)
| EvChatMessage (who : string)
| EvMarkdown (body : string) (help : option string)
| EvWrite (body : string)
| EvSpinner (label : string)
| EvExpander (label : string).

Record world (S : Type) : Type := mkWorld {
  ss : S;
  trace : list event
}.
Arguments mkWorld {S} ss trace.
Arguments ss {S} w.
Arguments trace {S} w.

Definition M (S A : Type) : Type := world S -> outcome A * world S.

Definition ret {S A} (a : A) : M S A := fun w => (Done a, w).

Definition bind {S A B} (m : M S A) (k : A -> M S B) : M S B :=
  fun w =>
    match m w with
    | (Done a, w') => k a w'
    | (Stopped, w') => (Stopped, w')
    | (Raised e, w') => (Raised e, w')
    end.

Definition raise {S A} (e : exn) : M S A := fun w => (Raised e, w).

(** [st.stop()] *)
Definition stop {S A} : M S A := fun w => (Stopped, w).

Definition emit {S} (e : event) : M S unit :=
  fun w => (Done tt, mkWorld (ss w) (trace w ++ [e])).

Definition gets {S A} (f : S -> A) : M S A := fun w => (Done (f (ss w)), w).

Definition modify {S} (f : S -> S) : M S unit :=
  fun w => (Done tt, mkWorld (f (ss w)) (trace w)).

Definition lift {S A} (r : result A) : M S A :=
  match r with
  | Ok a => ret a
  | Err e => raise e
  end.

Definition when {S} (b : bool) (m : M S unit) : M S unit :=
  if b then m else ret tt.

(** [for x in xs: body x] *)
Fixpoint for_each {S A} (xs : list A) (body : A -> M S unit) : M S unit :=
  match xs with
  | [] => ret tt
  | x :: rest => bind (body x) (fun _ => for_each rest body)
  end.

(** Truth value of a [str] and of a [list]. *)
Definition truthy_str (s : string) : bool := negb (s =? "").
Definition truthy_list {A} (l : list A) : bool :=
  match l with [] => false | _ :: _ => true end.

(** The global names of a module: those its [import] lines and its
    [def]s bind. *)
Definition bound (globals : list string) (n : string) : bool :=
  existsb (String.eqb n) globals.

(** Evaluating the global name [n]. *)
Definition use {S} (globals : list string) (n : string) : M S unit :=
  if bound globals n then ret tt else raise (NameError n).

(** Calling the library callable reached through the global name [n]:
    the name is looked up, the call is made, and what it raises is
    raised here. *)
Definition call {S A} (globals : list string) (n callee : string)
           (r : result A) : M S A :=
  bind (use globals n) (fun _ =>
  bind (emit (EvCall callee)) (fun _ =>
  lift r)).

(** [d[key]] on a dict with string keys. *)
Fixpoint getitem (d : list (string * string)) (key : string) : result string :=
  match d with
  | [] => Err (KeyError key)
  | (k, v) :: rest => if k =? key then Ok v else getitem rest key
  end.

End Py.

Import Py.

Declare Scope script_scope.
Delimit Scope script_scope with script.
Notation "x <- m ;; k" := (bind m (fun x => k))
  (at level 61, m at next level, right associativity) : script_scope.
Notation "m ;; k" := (bind m (fun _ => k))
  (at level 61, right associativity) : script_scope.
Open Scope script_scope.

(** ** pandas, as far as the two [get_text_from_csv] use it

    The scripts reach pandas through four calls: [pd.read_csv],
    [df.to_string(index=False)], [df.astype(str)] and [.sum()].  The model
    covers tables of text: comma-separated fields without quoting, lines
    ended by a line feed, every column of dtype [object].  Columns that
    pandas would read as numbers are outside it.  Widths are counted in
    bytes, which is the number of characters for ASCII text.

    Outside the model, where pandas does something else: columns of
    numbers or booleans (dtype inference, and the blank [to_string] puts
    before them), header names that are empty or repeated (pandas renames
    them), data lines longer than the header (pandas may take the first
    field as the index), quoted fields.  What [.sum()] gives for a column
    without rows and how a missing cell is written by [astype(str)]
    differ between pandas releases; the model follows pandas 2.  The
    results below use the model on the table [a,b / x,y] and on the empty
    file only. *)

Module Pandas.

Definition LF : string := String (ascii_of_nat 10) "".

(** A cell is a text or a missing value ([NaN]). *)
Record DataFrame : Type := mkDataFrame {
  columns : list string;
  rows : list (list (option string))
}.

(** [s.split(sep)] for a one-character separator. *)
Fixpoint split_on (sep : ascii) (s : string) : list string :=
  match s with
  | EmptyString => [""]
  | String c rest =>
      if Ascii.eqb c sep then "" :: split_on sep rest
      else match split_on sep rest with
           | [] => [String c ""]
           | field :: fields => String c field :: fields
           end
  end.

(** [sep.join(parts)] *)
Fixpoint join (sep : string) (parts : list string) : string :=
  match parts with
  | [] => ""
  | [p] => p
  | p :: rest => p ++ sep ++ join sep rest
  end.

(** The field texts [read_csv] takes for a missing value. *)
Definition na_values : list string :=
  [""; "#N/A"; "#N/A N/A"; "#NA"; "-1.#IND"; "-1.#QNAN"; "-NaN"; "-nan";
   "1.#IND"; "1.#QNAN"; "<NA>"; "N/A"; "NA"; "NULL"; "NaN"; "None"; "n/a";
   "nan"; "null"].

Definition parse_cell (field : string) : option string :=
  if existsb (String.eqb field) na_values then None else Some field.

(** A data line becomes a row as wide as the header: short lines are
    filled with missing values, long ones are a [ParserError]. *)
Definition parse_row (width : nat) (line : string)
  : result (list (option string)) :=
  let fields := split_on "," line in
  if Nat.ltb width (length fields)
  then Err (LibraryError "pd.read_csv" "ParserError: Error tokenizing data")
  else Ok (map parse_cell fields
           ++ repeat None (width - length fields))%list.

Fixpoint parse_rows (width : nat) (lines : list string)
  : result (list (list (option string))) :=
  match lines with
  | [] => Ok []
  | line :: rest =>
      match parse_row width line with
      | Err e => Err e
      | Ok r =>
          match parse_rows width rest with
          | Err e => Err e
          | Ok rs => Ok (r :: rs)
          end
      end
  end.

(** [io.StringIO(text)] and [io.BytesIO(data)] *)
Inductive buffer : Type :=
| StringIO (text : string)
| BytesIO (data : string).

(** [pd.read_csv(file_buffer)] on text: blank lines are skipped, the
    first line left is the header. *)
Definition read_csv_text (text : string) : result DataFrame :=
  match filter (fun l => negb (l =? "")) (split_on (ascii_of_nat 10) text) with
  | [] => Err (LibraryError "pd.read_csv"
                 "EmptyDataError: No columns to parse from file")
  | header :: lines =>
      let cols := split_on "," header in
      match parse_rows (length cols) lines with
      | Err e => Err e
      | Ok rs => Ok (mkDataFrame cols rs)
      end
  end.

(** [pd.read_csv(file_buffer)]: bytes are decoded first. *)
Definition read_csv (decode : string -> result string) (file_buffer : buffer)
  : result DataFrame :=
  match file_buffer with
  | StringIO text => read_csv_text text
  | BytesIO data =>
      match decode data with
      | Err e => Err e
      | Ok text => read_csv_text text
      end
  end.

(** How [to_string] and [astype(str)] write a cell. *)
Definition show_cell (c : option string) : string :=
  match c with Some s => s | None => "NaN" end.
Definition str_cell (c : option string) : string :=
  match c with Some s => s | None => "nan" end.

Definition column (j : nat) (df : DataFrame) : list (option string) :=
  map (fun r => nth j r None) (rows df).

Fixpoint spaces (n : nat) : string :=
  match n with
  | O => ""
  | S m => String " " (spaces m)
  end.

Definition rjust (width : nat) (s : string) : string :=
  spaces (width - String.length s) ++ s.

Definition col_width (df : DataFrame) (j : nat) (head : string) : nat :=
  fold_right Nat.max (String.length head)
             (map (fun c => String.length (show_cell c)) (column j df)).

Fixpoint widths_from (df : DataFrame) (j : nat) (heads : list string)
  : list nat :=
  match heads with
  | [] => []
  | h :: rest => col_width df j h :: widths_from df (S j) rest
  end.

Definition widths (df : DataFrame) : list nat :=
  widths_from df 0 (columns df).

Fixpoint render_line (ws : list nat) (cells : list string) : list string :=
  match ws, cells with
  | w :: ws', c :: cells' => rjust w c :: render_line ws' cells'
  | _, _ => []
  end.

(** The table with [lead] spaces before each line and [gap] spaces
    between columns; pandas releases differ in both. *)
Definition to_string_layout (lead gap : nat) (df : DataFrame) : string :=
  match rows df with
  | [] => "Empty DataFrame" ++ LF
          ++ "Columns: [" ++ join ", " (columns df) ++ "]" ++ LF
          ++ "Index: []"
  | _ :: _ =>
      let ws := widths df in
      let line cells := spaces lead ++ join (spaces gap) (render_line ws cells) in
      join LF (line (columns df)
               :: map (fun r => line (map show_cell r)) (rows df))
  end.

(** [df.to_string(index=False)]: columns right-justified, one space
    apart, the header line first. *)
Definition to_string (df : DataFrame) : string := to_string_layout 0 1 df.

(** [df.astype(str).sum()]: for every column the concatenation of its
    cells from top to bottom; on a table without rows the sum of an
    empty [object] column is the integer [0], here [None]. *)
Definition astype_str_sum (df : DataFrame) : list (option string) :=
  match rows df with
  | [] => map (fun _ => None) (columns df)
  | _ :: _ =>
      map (fun j => Some (String.concat "" (map str_cell (column j df))))
          (seq 0 (length (columns df)))
  end.

(** [' '.join(series)]: every item has to be a [str]. *)
Fixpoint all_str (items : list (option string)) : result (list string) :=
  match items with
  | [] => Ok []
  | None :: _ =>
      Err (TypeError "sequence item: expected str instance, int found")
  | Some s :: rest =>
      match all_str rest with
      | Err e => Err e
      | Ok l => Ok (s :: l)
      end
  end.

Definition join_series (sep : string) (items : list (option string))
  : result string :=
  match all_str items with
  | Err e => Err e
  | Ok l => Ok (join sep l)
  end.

End Pandas.

(** ** The libraries behind the scripts *)

(** What [RecursiveCharacterTextSplitter.split_documents] does with the
    [length_function] it was given: it returns, it raises, or it measures
    a text and goes on with the number it gets.  The splitter has no
    handler around the measuring, so what the length function raises ends
    the splitting. *)
Inductive Splitting (R : Type) : Type :=
| Returns (r : R)
| Raises (e : exn)
| Measures (text : string) (k : nat -> Splitting R).
Arguments Returns {R} r.
Arguments Raises {R} e.
Arguments Measures {R} text k.

Fixpoint run_splitting {S R} (length_function : string -> M S nat)
         (t : Splitting R) : M S R :=
  match t with
  | Returns r => ret r
  | Raises e => raise e
  | Measures text k =>
      n <- length_function text ;;
      run_splitting length_function (k n)
  end.

(** The splitting asks for the length of some text before it ends. *)
Definition measures {R} (t : Splitting R) : bool :=
  match t with
  | Measures _ _ => true
  | _ => false
  end.

(** What the retrieval chain hands back for a question: the keys
    [answer], [source_documents] and [chat_history] of its result. *)
Record ChainResult : Type := mkChainResult {
  answer : string;
  source_documents : list Document;
  result_chat_history : list message
}.

Record Lib : Type := mkLib {
  Embeddings : Type;
  VectorStore : Type;
  LLM : Type;
  Retriever : Type;
  Memory : Type;
  Chain : Type;
  (** [Loader(io.BytesIO(buffer)).load_and_split()] *)
  PyPDFLoader : string -> result (list Document);
  Docx2txtLoader : string -> result (list Document);
  UnstructuredPowerPointLoader : string -> result (list Document);
  (** [bytes.decode('utf-8')] *)
  decode_utf8 : string -> result string;
  (** [tiktoken.get_encoding(name).encode(text)] *)
  tiktoken_encode : string -> string -> result (list nat);
  (** [RecursiveCharacterTextSplitter(chunk_size, chunk_overlap,
      length_function).split_documents(documents)] *)
  split_documents : nat -> nat -> list pyobj -> Splitting (list Document);
  (** [HuggingFaceEmbeddings(model_name, device, normalize_embeddings)] *)
  HuggingFaceEmbeddings : string -> string -> bool -> result Embeddings;
  FAISS_from_documents : list Document -> Embeddings -> result VectorStore;
  (** [ChatOpenAI(openai_api_key, model_name, temperature)] *)
  ChatOpenAI : string -> string -> nat -> result LLM;
  (** [vectorstore.as_retriever(search_type)] *)
  as_retriever : VectorStore -> string -> result Retriever;
  (** [ConversationBufferMemory(memory_key, output_key)] *)
  ConversationBufferMemory : string -> string -> result Memory;
  (** [ConversationalRetrievalChain.from_llm(llm, chain_type, retriever,
      memory)] *)
  from_llm : LLM -> string -> Retriever -> Memory -> result Chain;
  (** [chain({"question": query})]: the result, and the chain with the
      turn added to its memory. *)
  chain_call : Chain -> string -> result (ChainResult * Chain);
  (** [StreamlitChatMessageHistory(key)] *)
  StreamlitChatMessageHistory : string -> result unit
}.

(** ** Session state

    [st.session_state] with the four keys the scripts use.  A key that was
    never assigned is [None]; [conversation] is assigned Python's [None]
    first and a chain later. *)
Record session_state (C : Type) : Type := mkSession {
  conversation : option (option C);
  chat_history : option (list message);
  processComplete : option bool;
  messages : option (list message)
}.
Arguments mkSession {C} conversation chat_history processComplete messages.
Arguments conversation {C} s.
Arguments chat_history {C} s.
Arguments processComplete {C} s.
Arguments messages {C} s.

Definition set_conversation {C} (v : option C) (s : session_state C) :=
  mkSession (Some v) (chat_history s) (processComplete s) (messages s).
Definition set_chat_history {C} (v : list message) (s : session_state C) :=
  mkSession (conversation s) (Some v) (processComplete s) (messages s).
Definition set_processComplete {C} (v : bool) (s : session_state C) :=
  mkSession (conversation s) (chat_history s) (Some v) (messages s).
Definition set_messages {C} (v : list message) (s : session_state C) :=
  mkSession (conversation s) (chat_history s) (processComplete s) (Some v).

(** A session before its first run. *)
Definition fresh {C} : session_state C := mkSession None None None None.

(** [if key not in st.session_state: st.session_state[key] = v] *)
Definition init_conversation {C} (s : session_state C) :=
  match conversation s with Some _ => s | None => set_conversation None s end.
Definition init_chat_history {C} (s : session_state C) :=
  match chat_history s with Some _ => s | None => set_chat_history [] s end.
Definition init_processComplete {C} (s : session_state C) :=
  match processComplete s with Some _ => s | None => set_processComplete false s end.
Definition init_messages {C} (greeting : message) (s : session_state C) :=
  match messages s with Some _ => s | None => set_messages [greeting] s end.

(** [st.session_state.attr]: reading a key that is not there raises. *)
Definition getattr {C A} (field : session_state C -> option A) (attr : string)
  : M (session_state C) A :=
  v <- gets field ;;
  match v with
  | Some a => ret a
  | None => raise (AttributeError ("st.session_state has no attribute " ++ attr))
  end.

(** [st.session_state.messages.append(m)] *)
Definition append_message {C} (m : message) : M (session_state C) unit :=
  ms <- getattr messages "messages" ;;
  modify (set_messages (ms ++ [m])).

(** The MIME types [get_text] knows. *)
Definition mime_pdf : string := "application/pdf".
Definition mime_docx : string :=
  "application/vnd.openxmlformats-officedocument.wordprocessingml.document".
Definition mime_pptx : string :=
  "application/vnd.openxmlformats-officedocument.presentationml.presentation".
Definition mime_csv : string := "text/csv".

Definition supported (mime : string) : bool :=
  (mime =? mime_pdf) || (mime =? mime_docx) || (mime =? mime_pptx)
  || (mime =? mime_csv).

(** The calls that load, chunk, embed or index, by the name they are
    logged under. *)
Definition pipeline_callees : list string :=
  ["PyPDFLoader"; "Docx2txtLoader"; "UnstructuredPowerPointLoader";
   "pd.read_csv"; "RecursiveCharacterTextSplitter"; "tiktoken";
   "HuggingFaceEmbeddings"; "FAISS.from_documents"; "ChatOpenAI";
   "as_retriever"; "ConversationBufferMemory";
   "ConversationalRetrievalChain.from_llm"].

Definition is_pipeline_call (e : event) : bool :=
  match e with
  | EvCall c => existsb (String.eqb c) pipeline_callees
  | _ => false
  end.

Definition is_warning (e : event) : bool :=
  match e with
  | EvWarning _ => true
  | _ => false
  end.

(** The widget values of one run: the sidebar's file uploader, key field
    and Process button, and the question field.  [st.chat_input] gives
    [None] when nothing was sent and the scripts only test the truth of
    what they get, so the empty string stands for it. *)
Record inputs : Type := mkInputs {
  uploaded_files : list UploadedFile;
  openai_api_key : string;
  process : bool;
  query : string
}.

(** Calling what [st.session_state.conversation] holds. *)
Definition call_chain (L : Lib) (chain : option (Chain L)) (question : string)
  : M (session_state (Chain L)) ChainResult :=
  match chain with
  | None => raise (TypeError "'NoneType' object is not callable")
  | Some c =>
      emit (EvCall "chain") ;;
      rc <- lift (chain_call L c question) ;;
      modify (set_conversation (Some (snd rc))) ;;
      ret (fst rc)
  end.

(** A run from a session state, on an empty page. *)
Definition run {S A} (m : M S A) (s : S) : outcome A * world S :=
  m (mkWorld s []).

(** ** streamlit_refer.py *)

Module streamlit_refer.

(** Lines 1-17 and the [def]s. *)
Definition globals : list string :=
  ["st"; "io"; "pd"; "tiktoken"; "logger";
   "ConversationalRetrievalChain"; "ChatOpenAI";
   "PyPDFLoader"; "Docx2txtLoader"; "UnstructuredPowerPointLoader";
   "CSVLoader"; "RecursiveCharacterTextSplitter"; "HuggingFaceEmbeddings";
   "ConversationBufferMemory"; "FAISS"; "Document";
   "StreamlitChatMessageHistory";
   "main"; "tiktoken_len"; "get_text_from_csv"; "get_text";
   "get_text_chunks"; "get_vectorstore"; "get_conversation_chain"].

Definition greeting : message :=
  mkMessage "assistant" "무엇을 도와드릴까요".

Section WithLib.
Context (L : Lib).
Local Abbreviation St := (session_state (Chain L)).

Definition name_ (n : string) : M St unit := use globals n.
Definition st_ (e : event) : M St unit := name_ "st" ;; emit e.

Definition tiktoken_len (text : string) : M St nat :=
  tokens <- call globals "tiktoken" "tiktoken"
                 (tiktoken_encode L "cl100k_base" text) ;;
  ret (length tokens).

Definition get_text_from_csv (file_buffer : Pandas.buffer) : M St string :=
  df <- call globals "pd" "pd.read_csv"
             (Pandas.read_csv (decode_utf8 L) file_buffer) ;;
  ret (Pandas.to_string df).

Fixpoint get_text_loop (docs : list UploadedFile) (doc_list : list pyobj)
  : M St (list pyobj) :=
  match docs with
  | [] => ret doc_list
  | doc :: rest =>
      if type doc =? mime_pdf then
        name_ "io" ;;
        documents <- call globals "PyPDFLoader" "PyPDFLoader"
                          (PyPDFLoader L (getbuffer doc)) ;;
        get_text_loop rest (doc_list ++ map PDoc documents)
      else if type doc =? mime_docx then
        name_ "io" ;;
        documents <- call globals "Docx2txtLoader" "Docx2txtLoader"
                          (Docx2txtLoader L (getbuffer doc)) ;;
        get_text_loop rest (doc_list ++ map PDoc documents)
      else if type doc =? mime_pptx then
        name_ "io" ;;
        documents <- call globals "UnstructuredPowerPointLoader"
                          "UnstructuredPowerPointLoader"
                          (UnstructuredPowerPointLoader L (getbuffer doc)) ;;
        get_text_loop rest (doc_list ++ map PDoc documents)
      else if type doc =? mime_csv then
        name_ "get_text_from_csv" ;;
        name_ "io" ;;
        text <- lift (decode_utf8 L (getbuffer doc)) ;;
        csv_text <- get_text_from_csv (Pandas.StringIO text) ;;
        name_ "Document" ;;
        get_text_loop rest
          (doc_list
           ++ [PDoc (mkDocument csv_text [("source", name doc)])])
      else
        get_text_loop rest doc_list
  end.

Definition get_text (docs : list UploadedFile) : M St (list pyobj) :=
  get_text_loop docs [].

Definition chunk_size : nat := 900.
Definition chunk_overlap : nat := 100.

Definition get_text_chunks (text : list pyobj) : M St (list Document) :=
  name_ "RecursiveCharacterTextSplitter" ;;
  name_ "tiktoken_len" ;;
  emit (EvCall "RecursiveCharacterTextSplitter") ;;
  run_splitting tiktoken_len
                (split_documents L chunk_size chunk_overlap text).

Definition get_vectorstore (text_chunks : list Document)
  : M St (VectorStore L) :=
  embeddings <- call globals "HuggingFaceEmbeddings" "HuggingFaceEmbeddings"
                     (HuggingFaceEmbeddings L "jhgan/ko-sroberta-multitask"
                                            "cpu" true) ;;
  call globals "FAISS" "FAISS.from_documents"
       (FAISS_from_documents L text_chunks embeddings).

Definition get_conversation_chain (vetorestore : VectorStore L)
           (openai_api_key : string) : M St (Chain L) :=
  llm <- call globals "ChatOpenAI" "ChatOpenAI"
              (ChatOpenAI L openai_api_key "gpt-3.5-turbo" 0) ;;
  name_ "ConversationalRetrievalChain" ;;
  emit (EvCall "as_retriever") ;;
  retriever <- lift (as_retriever L vetorestore "mmr") ;;
  memory <- call globals "ConversationBufferMemory"
                 "ConversationBufferMemory"
                 (ConversationBufferMemory L "chat_history" "answer") ;;
  emit (EvCall "ConversationalRetrievalChain.from_llm") ;;
  lift (from_llm L llm "stuff" retriever memory).

(** Lines 40-53. *)
Definition process_files (i : inputs) : M St unit :=
  when (negb (truthy_str (openai_api_key i)))
       (st_ (EvWarning "Please add your OpenAI API key to continue.") ;;
        name_ "st" ;; stop) ;;
  when (negb (truthy_list (uploaded_files i)))
       (st_ (EvWarning "Please upload at least one document.") ;;
        name_ "st" ;; stop) ;;
  name_ "get_text" ;;
  files_text <- get_text (uploaded_files i) ;;
  name_ "get_text_chunks" ;;
  text_chunks <- get_text_chunks files_text ;;
  name_ "get_vectorstore" ;;
  vectorestore <- get_vectorstore text_chunks ;;
  name_ "get_conversation_chain" ;;
  chain <- get_conversation_chain vectorestore (openai_api_key i) ;;
  modify (set_conversation (Some chain)) ;;
  modify (set_processComplete true).

(** Lines 66-88. *)
Definition chat (query : string) : M St unit :=
  append_message (mkMessage "user" query) ;;
  st_ (EvChatMessage "user") ;;
  st_ (EvMarkdown query None) ;;
  st_ (EvChatMessage "assistant") ;;
  chain <- getattr conversation "conversation" ;;
  st_ (EvSpinner "Thinking...") ;;
  result <- call_chain L chain query ;;
  name_ "get_openai_callback" ;;
  emit (EvCall "get_openai_callback") ;;
  modify (set_chat_history (result_chat_history result)) ;;
  let response := answer result in
  st_ (EvMarkdown response None) ;;
  st_ (EvExpander "참고 문서 확인") ;;
  for_each (source_documents result) (fun doc =>
    name_ "st" ;;
    source <- lift (getitem (metadata doc) "source") ;;
    emit (EvMarkdown source (Some (page_content doc)))) ;;
  append_message (mkMessage "assistant" response).

Definition main (i : inputs) : M St unit :=
  st_ (EvPage "set_page_config" "DirChat") ;;
  st_ (EvPage "title" "_SPAM MESSAGE 분류기 :red[TEST]_ :books:") ;;
  modify init_conversation ;;
  modify init_chat_history ;;
  modify init_processComplete ;;
  when (process i) (process_files i) ;;
  modify (init_messages greeting) ;;
  ms <- getattr messages "messages" ;;
  for_each ms (fun m =>
    st_ (EvChatMessage (role m)) ;;
    st_ (EvMarkdown (content m) None)) ;;
  call globals "StreamlitChatMessageHistory" "StreamlitChatMessageHistory"
       (StreamlitChatMessageHistory L "chat_messages") ;;
  when (truthy_str (query i)) (chat (query i)).

End WithLib.

End streamlit_refer.

(** ** test.py *)

Module test.

(** Lines 1-16 and the [def]s. *)
Definition globals : list string :=
  ["st"; "io"; "pd"; "logger";
   "ConversationalRetrievalChain"; "ChatOpenAI";
   "PyPDFLoader"; "Docx2txtLoader"; "UnstructuredPowerPointLoader";
   "RecursiveCharacterTextSplitter"; "HuggingFaceEmbeddings";
   "ConversationBufferMemory"; "FAISS";
   "get_openai_callback"; "StreamlitChatMessageHistory";
   "main"; "get_text_from_csv"; "get_text"; "get_text_chunks";
   "get_vectorstore"; "get_conversation_chain"; "tiktoken_len"].

Definition greeting : message :=
  mkMessage "system"
    "안녕하세요! 주어진 문서에 대해 궁금하신 것이 있으면 언제든 물어봐주세요!".

Section WithLib.
Context (L : Lib).
Local Abbreviation St := (session_state (Chain L)).

Definition name_ (n : string) : M St unit := use globals n.
Definition st_ (e : event) : M St unit := name_ "st" ;; emit e.

Definition tiktoken_len (text : string) : M St nat :=
  tokens <- call globals "tiktoken" "tiktoken"
                 (tiktoken_encode L "cl100k_base" text) ;;
  ret (length tokens).

Definition get_text_from_csv (file_buffer : Pandas.buffer) : M St string :=
  df <- call globals "pd" "pd.read_csv"
             (Pandas.read_csv (decode_utf8 L) file_buffer) ;;
  lift (Pandas.join_series " " (Pandas.astype_str_sum df)).

Fixpoint get_text_loop (docs : list UploadedFile) (doc_list : list pyobj)
  : M St (list pyobj) :=
  match docs with
  | [] => ret doc_list
  | doc :: rest =>
      if type doc =? mime_pdf then
        name_ "io" ;;
        documents <- call globals "PyPDFLoader" "PyPDFLoader"
                          (PyPDFLoader L (getbuffer doc)) ;;
        get_text_loop rest (doc_list ++ map PDoc documents)
      else if type doc =? mime_docx then
        name_ "io" ;;
        documents <- call globals "Docx2txtLoader" "Docx2txtLoader"
                          (Docx2txtLoader L (getbuffer doc)) ;;
        get_text_loop rest (doc_list ++ map PDoc documents)
      else if type doc =? mime_pptx then
        name_ "io" ;;
        documents <- call globals "UnstructuredPowerPointLoader"
                          "UnstructuredPowerPointLoader"
                          (UnstructuredPowerPointLoader L (getbuffer doc)) ;;
        get_text_loop rest (doc_list ++ map PDoc documents)
      else if type doc =? mime_csv then
        name_ "get_text_from_csv" ;;
        name_ "io" ;;
        text_data <- get_text_from_csv (Pandas.BytesIO (getbuffer doc)) ;;
        get_text_loop rest (doc_list ++ [PStr text_data])
      else
        get_text_loop rest doc_list
  end.

Definition get_text (docs : list UploadedFile) : M St (list pyobj) :=
  get_text_loop docs [].

Definition chunk_size : nat := 900.
Definition chunk_overlap : nat := 100.

Definition get_text_chunks (text : list pyobj) : M St (list Document) :=
  name_ "RecursiveCharacterTextSplitter" ;;
  name_ "tiktoken_len" ;;
  emit (EvCall "RecursiveCharacterTextSplitter") ;;
  run_splitting tiktoken_len
                (split_documents L chunk_size chunk_overlap text).

Definition get_vectorstore (text_chunks : list Document)
  : M St (VectorStore L) :=
  embeddings <- call globals "HuggingFaceEmbeddings" "HuggingFaceEmbeddings"
                     (HuggingFaceEmbeddings L "jhgan/ko-sroberta-multitask"
                                            "cpu" true) ;;
  call globals "FAISS" "FAISS.from_documents"
       (FAISS_from_documents L text_chunks embeddings).

Definition get_conversation_chain (vectorestore : VectorStore L)
           (openai_api_key : string) : M St (Chain L) :=
  llm <- call globals "ChatOpenAI" "ChatOpenAI"
              (ChatOpenAI L openai_api_key "gpt-3.5-turbo" 0) ;;
  name_ "ConversationalRetrievalChain" ;;
  emit (EvCall "as_retriever") ;;
  retriever <- lift (as_retriever L vectorestore "mmr") ;;
  memory <- call globals "ConversationBufferMemory"
                 "ConversationBufferMemory"
                 (ConversationBufferMemory L "chat_history" "answer") ;;
  emit (EvCall "ConversationalRetrievalChain.from_llm") ;;
  lift (from_llm L llm "retrieval" retriever memory).

(** Lines 39-52. *)
Definition process_files (i : inputs) : M St unit :=
  when (negb (truthy_str (openai_api_key i)))
       (st_ (EvWarning "Please add your OpenAI API key to continue.") ;;
        name_ "st" ;; stop) ;;
  when (negb (truthy_list (uploaded_files i)))
       (st_ (EvWarning "Please upload at least one document.") ;;
        name_ "st" ;; stop) ;;
  name_ "get_text" ;;
  files_text <- get_text (uploaded_files i) ;;
  name_ "get_text_chunks" ;;
  text_chunks <- get_text_chunks files_text ;;
  name_ "get_vectorstore" ;;
  vectorestore <- get_vectorstore text_chunks ;;
  name_ "get_conversation_chain" ;;
  chain <- get_conversation_chain vectorestore (openai_api_key i) ;;
  modify (set_conversation (Some chain)) ;;
  modify (set_processComplete true).

(** Lines 59-73. *)
Definition chat (query : string) : M St unit :=
  append_message (mkMessage "user" query) ;;
  chain <- getattr conversation "conversation" ;;
  match chain with
  | None => ret tt
  | Some _ =>
      st_ (EvSpinner "Thinking...") ;;
      chain <- getattr conversation "conversation" ;;
      result <- call_chain L chain query ;;
      let response := answer result in
      append_message (mkMessage "assistant" response) ;;
      st_ (EvExpander "참고 문서 확인") ;;
      for_each (source_documents result) (fun doc =>
        name_ "st" ;;
        source <- lift (getitem (metadata doc) "source") ;;
        emit (EvMarkdown ("- **Source**: " ++ source) None) ;;
        st_ (EvMarkdown ("```" ++ page_content doc ++ "```") None))
  end.

Definition main (i : inputs) : M St unit :=
  st_ (EvPage "set_page_config" "DirChat") ;;
  st_ (EvPage "title" "_Private Data :red[QA Chat]_ :books:") ;;
  modify (init_messages greeting) ;;
  modify init_conversation ;;
  modify init_chat_history ;;
  modify init_processComplete ;;
  when (process i) (process_files i) ;;
  ms <- getattr messages "messages" ;;
  for_each ms (fun m => st_ (EvWrite (role m ++ ": " ++ content m))) ;;
  complete <- getattr processComplete "processComplete" ;;
  when complete (when (truthy_str (query i)) (chat (query i))).

End WithLib.

End test.

(** ** A small library to run the scripts on

    One token per byte, loaders that give one page, a splitter that
    measures every document and keeps it whole, and a chain that answers
    from two chunks of the same file. *)

Module Demo.

Definition page (source : string) (text : string) : Document :=
  mkDocument text [("source", source)].

Definition encode (encoding text : string) : result (list nat) :=
  Ok (map nat_of_ascii (list_ascii_of_string text)).

Fixpoint split (documents : list pyobj) (chunks : list Document)
  : Splitting (list Document) :=
  match documents with
  | [] => Returns chunks
  | PDoc d :: rest =>
      Measures (page_content d) (fun _ => split rest (chunks ++ [d]))
  | PStr _ :: _ =>
      Raises (AttributeError "'str' object has no attribute 'page_content'")
  end.

Definition chain (turns : nat) (question : string)
  : result (ChainResult * nat) :=
  Ok (mkChainResult ("re: " ++ question)
                    [page "report.pdf" "first chunk";
                     page "report.pdf" "second chunk"]
                    [],
      S turns).

Definition lib : Lib :=
  mkLib unit unit unit unit unit nat
        (fun buffer => Ok [page "upload.pdf" buffer])
        (fun buffer => Ok [page "upload.docx" buffer])
        (fun buffer => Ok [page "upload.pptx" buffer])
        (fun data => Ok data)
        encode
        (fun _ _ documents => split documents [])
        (fun _ _ _ => Ok tt)
        (fun _ _ => Ok tt)
        (fun _ _ _ => Ok tt)
        (fun _ _ => Ok tt)
        (fun _ _ => Ok tt)
        (fun _ _ _ _ => Ok 0)
        chain
        (fun _ => Ok tt).

Definition csv_text : string := "a,b" ++ Pandas.LF ++ "x,y" ++ Pandas.LF.
Definition pdf : UploadedFile := mkUploadedFile "report.pdf" mime_pdf "%PDF".
Definition txt : UploadedFile := mkUploadedFile "notes.txt" "text/plain" "notes".
(** A CSV file as some browsers declare it. *)
Definition sheet : UploadedFile :=
  mkUploadedFile "sheet.csv" "application/vnd.ms-excel" csv_text.
Definition csv : UploadedFile := mkUploadedFile "table.csv" mime_csv csv_text.
(** The same library around another chain. *)
Definition with_chain (call : nat -> string -> result (ChainResult * nat))
  : Lib :=
  mkLib unit unit unit unit unit nat
        (fun buffer => Ok [page "upload.pdf" buffer])
        (fun buffer => Ok [page "upload.docx" buffer])
        (fun buffer => Ok [page "upload.pptx" buffer])
        (fun data => Ok data)
        encode
        (fun _ _ documents => split documents [])
        (fun _ _ _ => Ok tt)
        (fun _ _ => Ok tt)
        (fun _ _ _ => Ok tt)
        (fun _ _ => Ok tt)
        (fun _ _ => Ok tt)
        (fun _ _ _ _ => Ok 0)
        call
        (fun _ => Ok tt).

(** A chain whose remote call is refused, and one that retrieves a chunk
    without a [source]. *)
Definition refused (turns : nat) (question : string)
  : result (ChainResult * nat) :=
  Err (LibraryError "openai" "RateLimitError").

Definition unlabelled (turns : nat) (question : string)
  : result (ChainResult * nat) :=
  Ok (mkChainResult "yes"
        [page "report.pdf" "first chunk"; mkDocument "table text" []] [],
      S turns).

(** A CSV file with nothing in it. *)
Definition blank : UploadedFile := mkUploadedFile "blank.csv" mime_csv "".

(** A session in which a Process has gone through. *)
Definition processed (greeting : message) : session_state nat :=
  mkSession (Some (Some 0)) (Some []) (Some true) (Some [greeting]).

End Demo.

(** ** Reading a run *)

(** The messages of a session, none before the first run. *)
Definition transcript {C} (s : session_state C) : list message :=
  match messages s with
  | Some ms => ms
  | None => []
  end.

(** [s'] has the messages of [s] followed by messages that are all [ok]:
    nothing was removed, changed or put in between. *)
Definition extends {C} (ok : message -> Prop) (s s' : session_state C) : Prop :=
  exists added, transcript s' = (transcript s ++ added)%list /\ Forall ok added.

(** Whatever way the computation ends, the session state it leaves is
    related by [R] to the one it started from. *)
Definition keeps {S A} (R : S -> S -> Prop) (m : M S A) : Prop :=
  forall w, R (ss w) (ss (snd (m w))).

(** A run that was turned away at the configuration check: it ended at
    [st.stop()], it put one warning on the page, it called nothing that
    loads, chunks, embeds or indexes, and [conversation] and
    [processComplete] hold what they held once the defaults were in. *)
Definition blocked {C} (before : session_state C)
           (r : outcome unit * world (session_state C)) : Prop :=
  fst r = Stopped
  /\ (exists msg, filter is_warning (trace (snd r)) = [EvWarning msg])
  /\ filter is_pipeline_call (trace (snd r)) = []
  /\ conversation (ss (snd r)) = conversation (init_conversation before)
  /\ processComplete (ss (snd r))
     = processComplete (init_processComplete before).

(** The [source] entry of a chunk's metadata. *)
Definition source_of (d : Document) : option string :=
  match getitem (metadata d) "source" with
  | Ok label => Some label
  | Err _ => None
  end.

(** [s] without the prefix [p]. *)
Fixpoint strip_prefix (p s : string) : option string :=
  match p, s with
  | EmptyString, _ => Some s
  | String a p', String b s' =>
      if Ascii.eqb a b then strip_prefix p' s' else None
  | String _ _, EmptyString => None
  end.

(** The source labels a run of [test.py] put on the page, in the order
    they were shown: the lines [- **Source**: label]. *)
Definition cited_line (e : event) : list string :=
  match e with
  | EvMarkdown body None =>
      match strip_prefix "- **Source**: " body with
      | Some label => [label]
      | None => []
      end
  | _ => []
  end.

Definition cited (tr : list event) : list string := flat_map cited_line tr.

(** The run made the chain call. *)
Definition called_chain (tr : list event) : bool :=
  existsb (fun e => match e with
                    | EvCall callee => callee =? "chain"
                    | _ => false
                    end) tr.

(** What a run of [streamlit_refer.py] may add to the transcript: the
    greeting it seeds and the question of the run. *)
Definition refer_added (i : inputs) (m : message) : Prop :=
  m = streamlit_refer.greeting \/ m = mkMessage "user" (query i).

(** The label a chunk is cited under. *)
Definition label_of (d : Document) : string :=
  match source_of d with
  | Some label => label
  | None => ""
  end.

(** What the two scripts draw for a message of the transcript. *)
Definition refer_shown (m : message) : list event :=
  [EvChatMessage (role m); EvMarkdown (content m) None].

Definition test_shown (m : message) : list event :=
  [EvWrite (role m ++ ": " ++ content m)].

(** What [test.py] draws for a retrieved chunk. *)
Definition test_cites (label : string) (d : Document) : list event :=
  [EvMarkdown ("- **Source**: " ++ label) None;
   EvMarkdown ("```" ++ page_content d ++ "```") None].

(** The chat history a session holds, empty where the key is not set. *)
Definition held_chat_history {C} (s : session_state C) : list message :=
  match chat_history s with
  | Some h => h
  | None => []
  end.

(** A Process has gone through in this session. *)
Definition has_chain {C} (s : session_state C) : Prop :=
  exists c, conversation s = Some (Some c).

(** What was processed stays processed. *)
Definition stays_processed {C} (s s' : session_state C) : Prop :=
  (processComplete s = Some true -> processComplete s' = Some true)
  /\ (has_chain s -> has_chain s').

(** The three keys the first lines of [main] give a default to. *)
Definition keys_set {C} (s : session_state C) : Prop :=
  conversation s <> None /\ chat_history s <> None
  /\ processComplete s <> None.

(** A Process either goes through, and then [conversation] holds the new
    chain and [processComplete] is [True], or it ends early and the session
    state is what it was. *)
Definition all_or_nothing {C} (before : session_state C)
           (r : outcome unit * world (session_state C)) : Prop :=
  (fst r = Done tt
   /\ exists chain,
       ss (snd r)
       = set_processComplete true (set_conversation (Some chain) before))
  \/ (fst r <> Done tt /\ ss (snd r) = before).

(** The result of loading more files, with the documents [acc] that were
    loaded before them put in front. *)
Definition after_loaded {S} (acc : list pyobj)
           (r : outcome (list pyobj) * world S)
  : outcome (list pyobj) * world S :=
  match r with
  | (Done l, w) => (Done (acc ++ l)%list, w)
  | (Stopped, w) => (Stopped, w)
  | (Raised e, w) => (Raised e, w)
  end.

(** What a splitting comes to when every text it measures has the length
    [len] gives. *)
Fixpoint splitting_result {R} (len : string -> nat) (t : Splitting R)
  : result R :=
  match t with
  | Returns r => Ok r
  | Raises e => Err e
  | Measures text k => splitting_result len (k (len text))
  end.

(** ** Stepping through a computation *)

Section Steps.
Context {S : Type}.

Lemma bind_done {A B} (m : M S A) (k : A -> M S B) w a w' :
  m w = (Done a, w') -> bind m k w = k a w'.
Proof. intros E. unfold bind. now rewrite E. Qed.

Lemma bind_stopped {A B} (m : M S A) (k : A -> M S B) w w' :
  m w = (Stopped, w') -> bind m k w = (Stopped, w').
Proof. intros E. unfold bind. now rewrite E. Qed.

Lemma bind_raised {A B} (m : M S A) (k : A -> M S B) w e w' :
  m w = (Raised e, w') -> bind m k w = (Raised e, w').
Proof. intros E. unfold bind. now rewrite E. Qed.

(** A loop whose body only writes on the page runs to its end. *)
Lemma for_each_emits {A} (xs : list A) (body : A -> M S unit)
      (shown : A -> list event) :
  (forall x w, body x w = (Done tt, mkWorld (ss w) (trace w ++ shown x))) ->
  forall w,
    for_each xs body w
    = (Done tt, mkWorld (ss w) (trace w ++ flat_map shown xs)).
Proof.
  intros Hbody. induction xs as [|x xs IH]; intros w; simpl.
  - unfold ret. rewrite app_nil_r. now destruct w.
  - rewrite (bind_done _ _ _ _ _ (Hbody x w)), IH. simpl.
    now rewrite <- app_assoc.
Qed.

End Steps.

(** ** Frames: what a computation leaves alone *)

Section Frames.
Context {S : Type} (R : S -> S -> Prop).
Hypothesis R_refl : forall s, R s s.
Hypothesis R_trans : forall s1 s2 s3, R s1 s2 -> R s2 s3 -> R s1 s3.

Lemma keeps_ret {A} (a : A) : keeps R (ret a).
Proof. intros w. apply R_refl. Qed.

Lemma keeps_raise {A} e : keeps R (@raise S A e).
Proof. intros w. apply R_refl. Qed.

Lemma keeps_stop {A} : keeps R (@stop S A).
Proof. intros w. apply R_refl. Qed.

Lemma keeps_emit e : keeps R (@emit S e).
Proof. intros w. apply R_refl. Qed.

Lemma keeps_gets {A} (f : S -> A) : keeps R (gets f).
Proof. intros w. apply R_refl. Qed.

Lemma keeps_lift {A} (r : result A) : keeps R (@lift S A r).
Proof. destruct r; intros w; apply R_refl. Qed.

Lemma keeps_use globals n : keeps R (@use S globals n).
Proof. unfold use. destruct (bound globals n); intros w; apply R_refl. Qed.

Lemma keeps_modify (f : S -> S) :
  (forall s, R s (f s)) -> keeps R (modify f).
Proof. intros Hf w. apply Hf. Qed.

Lemma keeps_bind {A B} (m : M S A) (k : A -> M S B) :
  keeps R m -> (forall a, keeps R (k a)) -> keeps R (bind m k).
Proof.
  intros Hm Hk w. unfold bind. specialize (Hm w).
  destruct (m w) as [[a| |e] w1]; simpl in *; trivial.
  eapply R_trans; [exact Hm | apply Hk].
Qed.

(** What follows a step that never ends normally does not matter. *)
Lemma keeps_bind_dead {A B} (m : M S A) (k : A -> M S B) :
  keeps R m -> (forall w a, fst (m w) <> Done a) -> keeps R (bind m k).
Proof.
  intros Hm Hdead w. unfold bind. specialize (Hm w). specialize (Hdead w).
  destruct (m w) as [[a| |e] w1]; simpl in *; trivial.
  now destruct (Hdead a).
Qed.

Lemma keeps_call {A} globals n callee (r : result A) :
  keeps R (@call S A globals n callee r).
Proof.
  unfold call. apply keeps_bind; [apply keeps_use|intros _].
  apply keeps_bind; [apply keeps_emit|intros _]. apply keeps_lift.
Qed.

Lemma keeps_when (b : bool) (m : M S unit) :
  keeps R m -> keeps R (when b m).
Proof. destruct b; simpl; trivial. intros _. apply keeps_ret. Qed.

Lemma keeps_for_each {A} (xs : list A) (body : A -> M S unit) :
  (forall x, keeps R (body x)) -> keeps R (for_each xs body).
Proof.
  intros Hbody. induction xs as [|x xs IH]; simpl.
  - apply keeps_ret.
  - apply keeps_bind; [apply Hbody|intros _; exact IH].
Qed.

Lemma keeps_run_splitting {T} (length_function : string -> M S nat)
      (t : Splitting T) :
  (forall text, keeps R (length_function text)) ->
  keeps R (run_splitting length_function t).
Proof.
  intros Hlen. induction t as [r|e|text k IH]; simpl.
  - apply keeps_ret.
  - apply keeps_raise.
  - apply keeps_bind; [apply Hlen|exact IH].
Qed.

End Frames.

(** One step of a frame proof: split a sequence, or close a leaf. *)
Ltac frame_step :=
  first
    [ apply keeps_ret | apply keeps_raise | apply keeps_stop
    | apply keeps_emit | apply keeps_gets | apply keeps_lift
    | apply keeps_use | apply keeps_call
    | apply keeps_when | apply keeps_for_each | apply keeps_bind ];
  try assumption; intros.

Ltac frame := repeat frame_step.

(** ** The configuration check *)

Lemma blocked_fresh_session {C} (s : session_state C) r :
  blocked s r ->
  conversation s = None -> processComplete s = None ->
  conversation (ss (snd r)) = Some None
  /\ processComplete (ss (snd r)) = Some false.
Proof.
  intros (_ & _ & _ & Hc & Hp) Hc0 Hp0.
  unfold init_conversation in Hc. unfold init_processComplete in Hp.
  rewrite Hc0 in Hc. rewrite Hp0 in Hp. now split.
Qed.

Ltac session_cases s :=
  destruct s as [[?|] [?|] [?|] [?|]].

(** C1.  A Process action with an empty API key or with no uploaded file
    stops before anything is loaded, chunked, embedded or indexed, warns
    the user, assigns no conversation and leaves [processComplete] as it
    was (so [False] in a session that never completed a Process); this
    holds in both scripts. *)
Theorem process_without_key_or_files_is_blocked :
  forall (L : Lib) (i : inputs) (s : session_state (Chain L)),
    process i = true ->
    openai_api_key i = "" \/ uploaded_files i = [] ->
    blocked s (run (streamlit_refer.main L i) s)
    /\ blocked s (run (test.main L i) s).
Proof.
  intros L [files key p q] s Hp Hmissing. simpl in Hp, Hmissing. subst p.
  destruct Hmissing as [-> | ->].
  - split; session_cases s; vm_compute;
      repeat split; try (eexists; reflexivity).
  - destruct key as [|c key].
    + split; session_cases s; vm_compute;
        repeat split; try (eexists; reflexivity).
    + split; session_cases s; vm_compute;
        repeat split; try (eexists; reflexivity).
Qed.

Lemma process_without_key_or_files_is_blocked_witness :
  blocked fresh (run (streamlit_refer.main Demo.lib
                        (mkInputs [Demo.pdf] "" true "")) fresh)
  /\ blocked fresh (run (test.main Demo.lib
                           (mkInputs [Demo.pdf] "" true "")) fresh).
Proof.
  apply (process_without_key_or_files_is_blocked
           Demo.lib (mkInputs [Demo.pdf] "" true "") fresh).
  - reflexivity.
  - left. reflexivity.
Defined.

(** ** The loader *)

Lemma bind_ext {S A B} (m : M S A) (k k' : A -> M S B) :
  (forall a w, k a w = k' a w) -> forall w, bind m k w = bind m k' w.
Proof.
  intros Hk w. unfold bind. destruct (m w) as [[a| |e] w1]; trivial.
Qed.

Lemma unsupported_branches mime :
  supported mime = false ->
  (mime =? mime_pdf) = false /\ (mime =? mime_docx) = false
  /\ (mime =? mime_pptx) = false /\ (mime =? mime_csv) = false.
Proof.
  unfold supported. intros H.
  apply orb_false_elim in H as [H Hcsv].
  apply orb_false_elim in H as [H Hpptx].
  apply orb_false_elim in H as [Hpdf Hdocx]. auto.
Qed.

Ltac under_binds := repeat (apply bind_ext; intros).

Section Loader.
Context (L : Lib).

Lemma refer_skips_one d rest acc :
  supported (type d) = false ->
  streamlit_refer.get_text_loop L (d :: rest) acc
  = streamlit_refer.get_text_loop L rest acc.
Proof.
  intros H. apply unsupported_branches in H as (Hpdf & Hdocx & Hpptx & Hcsv).
  cbn [streamlit_refer.get_text_loop].
  now rewrite Hpdf, Hdocx, Hpptx, Hcsv.
Qed.

Lemma test_skips_one d rest acc :
  supported (type d) = false ->
  test.get_text_loop L (d :: rest) acc = test.get_text_loop L rest acc.
Proof.
  intros H. apply unsupported_branches in H as (Hpdf & Hdocx & Hpptx & Hcsv).
  cbn [test.get_text_loop].
  now rewrite Hpdf, Hdocx, Hpptx, Hcsv.
Qed.

Lemma refer_skips pre d post :
  supported (type d) = false ->
  forall acc w,
    streamlit_refer.get_text_loop L (pre ++ d :: post) acc w
    = streamlit_refer.get_text_loop L (pre ++ post) acc w.
Proof.
  intros Hd. induction pre as [|x pre IH]; intros acc w.
  - simpl app. now rewrite refer_skips_one.
  - simpl app. cbn [streamlit_refer.get_text_loop].
    destruct (type x =? mime_pdf); [under_binds; apply IH|].
    destruct (type x =? mime_docx); [under_binds; apply IH|].
    destruct (type x =? mime_pptx); [under_binds; apply IH|].
    destruct (type x =? mime_csv); [under_binds; apply IH|].
    apply IH.
Qed.

Lemma test_skips pre d post :
  supported (type d) = false ->
  forall acc w,
    test.get_text_loop L (pre ++ d :: post) acc w
    = test.get_text_loop L (pre ++ post) acc w.
Proof.
  intros Hd. induction pre as [|x pre IH]; intros acc w.
  - simpl app. now rewrite test_skips_one.
  - simpl app. cbn [test.get_text_loop].
    destruct (type x =? mime_pdf); [under_binds; apply IH|].
    destruct (type x =? mime_docx); [under_binds; apply IH|].
    destruct (type x =? mime_pptx); [under_binds; apply IH|].
    destruct (type x =? mime_csv); [under_binds; apply IH|].
    apply IH.
Qed.

Lemma refer_skips_all docs :
  Forall (fun d => supported (type d) = false) docs ->
  forall acc, streamlit_refer.get_text_loop L docs acc = ret acc.
Proof.
  induction 1 as [|d docs Hd _ IH]; intros acc; [reflexivity|].
  rewrite refer_skips_one by exact Hd. apply IH.
Qed.

Lemma test_skips_all docs :
  Forall (fun d => supported (type d) = false) docs ->
  forall acc, test.get_text_loop L docs acc = ret acc.
Proof.
  induction 1 as [|d docs Hd _ IH]; intros acc; [reflexivity|].
  rewrite test_skips_one by exact Hd. apply IH.
Qed.

End Loader.

(** C6.  A file whose declared type is none of PDF, DOCX, PPTX and CSV
    adds nothing and raises nothing: [get_text] on the batch with the
    file does what it does on the batch without it (same documents, same
    outcome, same calls), and a batch of such files alone gives the empty
    document list; in both scripts. *)
Theorem unsupported_files_are_skipped :
  forall (L : Lib) (pre post batch : list UploadedFile) (d : UploadedFile)
         (w : world (session_state (Chain L))),
    supported (type d) = false ->
    Forall (fun f => supported (type f) = false) batch ->
    streamlit_refer.get_text L (pre ++ d :: post) w
    = streamlit_refer.get_text L (pre ++ post) w
    /\ test.get_text L (pre ++ d :: post) w = test.get_text L (pre ++ post) w
    /\ streamlit_refer.get_text L batch w = (Done [], w)
    /\ test.get_text L batch w = (Done [], w).
Proof.
  intros L pre post batch d w Hd Hbatch.
  unfold streamlit_refer.get_text, test.get_text.
  rewrite (refer_skips_all L batch Hbatch), (test_skips_all L batch Hbatch).
  repeat split.
  - now apply refer_skips.
  - now apply test_skips.
Qed.

Lemma unsupported_files_are_skipped_witness :
  streamlit_refer.get_text Demo.lib ([Demo.pdf] ++ Demo.txt :: [Demo.csv])
                           (mkWorld fresh [])
  = streamlit_refer.get_text Demo.lib ([Demo.pdf] ++ [Demo.csv])
                             (mkWorld fresh [])
  /\ test.get_text Demo.lib ([Demo.pdf] ++ Demo.txt :: [Demo.csv])
                   (mkWorld fresh [])
     = test.get_text Demo.lib ([Demo.pdf] ++ [Demo.csv]) (mkWorld fresh [])
  /\ streamlit_refer.get_text Demo.lib [Demo.txt; Demo.txt] (mkWorld fresh [])
     = (Done [], mkWorld fresh [])
  /\ test.get_text Demo.lib [Demo.txt; Demo.txt] (mkWorld fresh [])
     = (Done [], mkWorld fresh []).
Proof.
  apply (unsupported_files_are_skipped
           Demo.lib [Demo.pdf] [Demo.csv] [Demo.txt; Demo.txt] Demo.txt
           (mkWorld fresh [])).
  - reflexivity.
  - repeat constructor.
Defined.

(** ** What the Process pipeline leaves alone *)

Section PipelineFrames.
Context (L : Lib) (R : session_state (Chain L) -> session_state (Chain L) -> Prop).
Hypothesis R_refl : forall s, R s s.
Hypothesis R_trans : forall s1 s2 s3, R s1 s2 -> R s2 s3 -> R s1 s3.

Lemma keeps_getattr {A} (field : session_state (Chain L) -> option A) attr :
  keeps R (getattr field attr).
Proof. unfold getattr. frame. destruct a; frame. Qed.

Lemma refer_keeps_get_text docs : keeps R (streamlit_refer.get_text L docs).
Proof.
  unfold streamlit_refer.get_text. generalize (@nil pyobj).
  induction docs as [|d docs IH]; intros acc;
    cbn [streamlit_refer.get_text_loop]; [frame|].
  unfold streamlit_refer.name_, streamlit_refer.get_text_from_csv.
  repeat destruct (_ =? _); frame; apply IH.
Qed.

Lemma test_keeps_get_text docs : keeps R (test.get_text L docs).
Proof.
  unfold test.get_text. generalize (@nil pyobj).
  induction docs as [|d docs IH]; intros acc;
    cbn [test.get_text_loop]; [frame|].
  unfold test.name_, test.get_text_from_csv.
  repeat destruct (_ =? _); frame; apply IH.
Qed.

Lemma refer_keeps_get_text_chunks docs :
  keeps R (streamlit_refer.get_text_chunks L docs).
Proof.
  unfold streamlit_refer.get_text_chunks, streamlit_refer.name_. frame.
  apply keeps_run_splitting; trivial. intros text.
  unfold streamlit_refer.tiktoken_len. frame.
Qed.

Lemma test_keeps_get_text_chunks docs :
  keeps R (test.get_text_chunks L docs).
Proof.
  unfold test.get_text_chunks, test.name_. frame.
  apply keeps_run_splitting; trivial. intros text.
  unfold test.tiktoken_len. frame.
Qed.

Lemma refer_keeps_get_vectorstore chunks :
  keeps R (streamlit_refer.get_vectorstore L chunks).
Proof. unfold streamlit_refer.get_vectorstore. frame. Qed.

Lemma test_keeps_get_vectorstore chunks :
  keeps R (test.get_vectorstore L chunks).
Proof. unfold test.get_vectorstore. frame. Qed.

Lemma refer_keeps_get_conversation_chain v key :
  keeps R (streamlit_refer.get_conversation_chain L v key).
Proof.
  unfold streamlit_refer.get_conversation_chain, streamlit_refer.name_.
  frame.
Qed.

Lemma test_keeps_get_conversation_chain v key :
  keeps R (test.get_conversation_chain L v key).
Proof.
  unfold test.get_conversation_chain, test.name_. frame.
Qed.

(** The relation holds across the assignments a Process makes. *)
Hypothesis R_conversation : forall c s, R s (set_conversation c s).
Hypothesis R_processComplete : forall b s, R s (set_processComplete b s).

Lemma refer_keeps_process_files i :
  keeps R (streamlit_refer.process_files L i).
Proof.
  unfold streamlit_refer.process_files, streamlit_refer.st_,
    streamlit_refer.name_.
  frame.
  - apply refer_keeps_get_text.
  - apply keeps_run_splitting; trivial. intros text.
    unfold streamlit_refer.tiktoken_len. frame.
  - apply keeps_modify. auto.
  - apply keeps_modify. auto.
Qed.

Lemma test_keeps_process_files i : keeps R (test.process_files L i).
Proof.
  unfold test.process_files, test.st_, test.name_.
  frame.
  - apply test_keeps_get_text.
  - apply keeps_run_splitting; trivial. intros text.
    unfold test.tiktoken_len. frame.
  - apply keeps_modify. auto.
  - apply keeps_modify. auto.
Qed.

Lemma keeps_call_chain chain question :
  keeps R (call_chain L chain question).
Proof.
  unfold call_chain. destruct chain; frame.
  apply keeps_modify. auto.
Qed.

End PipelineFrames.

(** ** CSV to text *)

Lemma layout_of_sample_never_the_sums lead gap :
  Pandas.to_string_layout lead gap
    (Pandas.mkDataFrame ["a"; "b"] [[Some "x"; Some "y"]])
  <> "x y".
Proof.
  destruct lead as [|lead]; cbn; discriminate.
Qed.

(** C9.  The two [get_text_from_csv] are not the same function: on the
    CSV text with header [a,b] and the one row [x,y] the one of
    [streamlit_refer.py] gives the table with its header line, the one of
    [test.py] the column sums [x y]; whatever the libraries and the
    session are. *)
Theorem csv_to_text_variants_differ :
  exists file_buffer : Pandas.buffer,
    forall (L : Lib) (w : world (session_state (Chain L))),
      exists table sums : string,
        fst (streamlit_refer.get_text_from_csv L file_buffer w) = Done table
        /\ fst (test.get_text_from_csv L file_buffer w) = Done sums
        /\ table <> sums.
Proof.
  exists (Pandas.StringIO Demo.csv_text). intros L w.
  exists ("a b" ++ Pandas.LF ++ "x y"), "x y".
  split; [reflexivity|]. split; [reflexivity|]. discriminate.
Qed.

(** ** Chunking in test.py *)

Ltac step := erewrite bind_done by reflexivity.

Section TestChunking.
Context (L : Lib).

Lemma test_tiktoken_len_unbound text w :
  test.tiktoken_len L text w = (Raised (NameError "tiktoken"), w).
Proof. reflexivity. Qed.

Lemma test_get_text_chunks_unbound docs w :
  measures (split_documents L 900 100 docs) = true ->
  test.get_text_chunks L docs w
  = (Raised (NameError "tiktoken"),
     mkWorld (ss w) (trace w ++ [EvCall "RecursiveCharacterTextSplitter"])).
Proof.
  intros Hm. unfold test.get_text_chunks. do 3 step.
  change test.chunk_size with 900. change test.chunk_overlap with 100.
  destruct (split_documents L 900 100 docs) as [r|e|text k];
    try discriminate Hm.
  reflexivity.
Qed.

Lemma test_process_files_unbound i docs w :
  openai_api_key i <> "" ->
  uploaded_files i <> [] ->
  (forall w', fst (test.get_text L (uploaded_files i) w') = Done docs) ->
  measures (split_documents L 900 100 docs) = true ->
  fst (test.process_files L i w) = Raised (NameError "tiktoken")
  /\ ss (snd (test.process_files L i w)) = ss w.
Proof.
  intros Hkey Hfiles Hget Hm. unfold test.process_files.
  destruct i as [files key p q]; simpl in *.
  destruct key as [|c key]; [contradiction|].
  destruct files as [|f files]; [contradiction|].
  do 3 step.
  specialize (Hget w).
  pose proof (test_keeps_get_text L eq (@eq_refl _) (@eq_trans _)
                (f :: files) w) as Hss.
  destruct (test.get_text L (f :: files) w) as [o w1] eqn:E.
  simpl in Hget, Hss. subst o.
  rewrite (bind_done _ _ _ _ _ E). step.
  rewrite (bind_raised _ _ _ _ _ (test_get_text_chunks_unbound docs w1 Hm)).
  simpl. auto.
Qed.

End TestChunking.

(** C3, amended.  In [test.py] the length function handed to the splitter
    uses the name [tiktoken], which the module never binds: whenever
    splitting a document list measures a text, [get_text_chunks] ends in
    a [NameError], and so does every Process action with an API key whose
    uploads load into such a list; no conversation is assigned and
    [processComplete] is not set. *)
Theorem test_chunking_hits_unbound_tiktoken :
  forall (L : Lib) (docs : list pyobj),
    measures
      (split_documents L test.chunk_size test.chunk_overlap docs) = true ->
    (forall w, fst (test.get_text_chunks L docs w)
               = Raised (NameError "tiktoken"))
    /\ (forall (i : inputs) (s : session_state (Chain L)),
           process i = true ->
           openai_api_key i <> "" ->
           uploaded_files i <> [] ->
           (forall w, fst (test.get_text L (uploaded_files i) w) = Done docs) ->
           let r := run (test.main L i) s in
           fst r = Raised (NameError "tiktoken")
           /\ conversation (ss (snd r)) = conversation (init_conversation s)
           /\ processComplete (ss (snd r))
              = processComplete (init_processComplete s)).
Proof.
  intros L docs Hm. split.
  - intros w. now rewrite test_get_text_chunks_unbound.
  - intros i s Hp Hkey Hfiles Hget r. subst r.
    unfold run, test.main. do 6 step. rewrite Hp. cbn [when].
    match goal with
    | |- context [bind (test.process_files L i) ?k ?w] =>
        destruct (test_process_files_unbound L i docs w Hkey Hfiles Hget Hm)
          as [Hout Hss];
        destruct (test.process_files L i w) as [o w1] eqn:E
    end.
    simpl in Hout, Hss. subst o.
    rewrite (bind_raised _ _ _ _ _ E). simpl. rewrite Hss. simpl.
    session_cases s; repeat split.
Qed.

Lemma test_chunking_hits_unbound_tiktoken_witness :
  (forall w, fst (test.get_text_chunks Demo.lib
                    [PDoc (Demo.page "upload.pdf" "%PDF")] w)
             = Raised (NameError "tiktoken"))
  /\ (let r := run (test.main Demo.lib (mkInputs [Demo.pdf] "sk" true ""))
                   fresh in
      fst r = Raised (NameError "tiktoken")
      /\ conversation (ss (snd r)) = Some None
      /\ processComplete (ss (snd r)) = Some false).
Proof.
  pose proof (test_chunking_hits_unbound_tiktoken
                Demo.lib [PDoc (Demo.page "upload.pdf" "%PDF")] eq_refl)
    as [Hchunks Hprocess].
  split; [exact Hchunks|].
  apply (Hprocess (mkInputs [Demo.pdf] "sk" true "") fresh).
  - reflexivity.
  - discriminate.
  - discriminate.
  - intros w. reflexivity.
Defined.

(** A Process of [test.py] over a CSV upload, with a key: the text of the
    CSV is a [str], the splitter asks it for [page_content], and the run
    ends in an [AttributeError] before any length is measured. *)
Lemma test_process_over_csv_is_attribute_error :
  let out := run (test.main Demo.lib (mkInputs [Demo.csv] "sk" true "")) fresh in
  fst out
  = Raised (AttributeError "'str' object has no attribute 'page_content'")
  /\ fst out <> Raised (NameError "tiktoken").
Proof.
  cbv zeta. split; [reflexivity|]. vm_compute. discriminate.
Qed.

(** ** The transcript *)

Section Transcript.
Context {C : Type} (ok : message -> Prop).

Lemma extends_refl (s : session_state C) : extends ok s s.
Proof. exists []. now rewrite app_nil_r. Qed.

Lemma extends_trans (s1 s2 s3 : session_state C) :
  extends ok s1 s2 -> extends ok s2 s3 -> extends ok s1 s3.
Proof.
  intros (a1 & E1 & H1) (a2 & E2 & H2). exists (a1 ++ a2)%list. split.
  - now rewrite E2, E1, app_assoc.
  - apply Forall_app. now split.
Qed.

Lemma extends_same (s s' : session_state C) :
  messages s' = messages s -> extends ok s s'.
Proof.
  intros E. exists []. unfold transcript. now rewrite E, app_nil_r.
Qed.

Lemma extends_init_messages g (s : session_state C) :
  ok g -> extends ok s (init_messages g s).
Proof.
  intros Hg. unfold init_messages.
  destruct (messages s) as [ms|] eqn:E; [apply extends_refl|].
  exists [g]. unfold transcript. rewrite E. simpl. auto.
Qed.

Lemma keeps_append_message m :
  ok m -> keeps (extends ok) (@append_message C m).
Proof.
  intros Hm w. unfold append_message, getattr, gets, bind, modify.
  destruct (messages (ss w)) as [ms|] eqn:E; simpl.
  - exists [m]. unfold transcript. rewrite E. simpl. auto.
  - apply extends_refl.
Qed.

End Transcript.

Lemma extends_weaken {C} (ok ok' : message -> Prop) (s s' : session_state C) :
  (forall m, ok m -> ok' m) -> extends ok s s' -> extends ok' s s'.
Proof.
  intros Himp (added & E & H). exists added. split; [exact E|].
  eapply Forall_impl; eauto.
Qed.

(** The relations the two [main] are framed by: across every assignment
    the scripts make outside the transcript, and across the seeding of
    the greeting. *)
Section MainFrames.
Context (L : Lib) (i : inputs).
Context (R : session_state (Chain L) -> session_state (Chain L) -> Prop).
Hypothesis R_refl : forall s, R s s.
Hypothesis R_trans : forall s1 s2 s3, R s1 s2 -> R s2 s3 -> R s1 s3.
Hypothesis R_same : forall s s', messages s' = messages s -> R s s'.
Hypothesis R_user :
  keeps R (append_message (mkMessage "user" (query i))).

Let R_conversation c s : R s (set_conversation c s).
Proof. now apply R_same. Qed.

Let R_processComplete b s : R s (set_processComplete b s).
Proof. now apply R_same. Qed.

Ltac leaf :=
  first
    [ assumption
    | apply keeps_modify; intros; (apply R_same; unfold init_conversation,
        init_chat_history, init_processComplete;
        repeat match goal with |- context [match ?x with _ => _ end] =>
                 destruct x end; reflexivity)
    | apply keeps_getattr; assumption
    | apply keeps_call_chain; assumption
    | frame ].

Lemma refer_keeps_chat :
  keeps R (streamlit_refer.chat L (query i)).
Proof.
  unfold streamlit_refer.chat.
  do 7 (apply keeps_bind; [assumption|leaf|intros]).
  apply keeps_bind_dead.
  - unfold streamlit_refer.name_. frame.
  - intros ? ?. cbv. discriminate.
Qed.

Section Refer.
Hypothesis R_greeting :
  forall s, R s (init_messages streamlit_refer.greeting s).

Lemma refer_keeps_main : keeps R (streamlit_refer.main L i).
Proof.
  unfold streamlit_refer.main.
  do 5 (apply keeps_bind; [assumption|leaf|intros]).
  apply keeps_bind; [assumption| |intros].
  { apply keeps_when; [assumption|]. apply refer_keeps_process_files; assumption. }
  apply keeps_bind; [assumption| |intros].
  { apply keeps_modify. apply R_greeting. }
  do 3 (apply keeps_bind; [assumption|leaf|intros]).
  apply keeps_when; [assumption|]. apply refer_keeps_chat.
Qed.
End Refer.

Section Test.
Hypothesis R_greeting : forall s, R s (init_messages test.greeting s).
Hypothesis R_assistant :
  forall a, keeps R (append_message (mkMessage "assistant" a)).

Lemma test_keeps_chat : keeps R (test.chat L (query i)).
Proof.
  unfold test.chat.
  do 2 (apply keeps_bind; [assumption|leaf|intros]).
  destruct a0 as [c|]; [|frame].
  do 3 (apply keeps_bind; [assumption|leaf|intros]).
  apply keeps_bind; [assumption|apply R_assistant|intros].
  unfold test.st_, test.name_. frame.
Qed.

Lemma test_keeps_main : keeps R (test.main L i).
Proof.
  unfold test.main.
  do 2 (apply keeps_bind; [assumption|leaf|intros]).
  apply keeps_bind; [assumption| |intros].
  { apply keeps_modify. apply R_greeting. }
  do 3 (apply keeps_bind; [assumption|leaf|intros]).
  apply keeps_bind; [assumption| |intros].
  { apply keeps_when; [assumption|]. apply test_keeps_process_files; assumption. }
  do 3 (apply keeps_bind; [assumption|leaf|intros]).
  do 2 (apply keeps_when; [assumption|]). apply test_keeps_chat.
Qed.
End Test.

End MainFrames.

(** ** A chat turn in streamlit_refer.py *)

Section ReferChat.
Context (L : Lib).

Lemma refer_display_loop ms (w : world (session_state (Chain L))) :
  for_each ms (fun m =>
    streamlit_refer.st_ L (EvChatMessage (role m)) ;;
    streamlit_refer.st_ L (EvMarkdown (content m) None)) w
  = (Done tt, mkWorld (ss w) (trace w ++ flat_map refer_shown ms)).
Proof.
  apply for_each_emits. intros m w0. cbn. unfold emit. cbn.
  now rewrite <- app_assoc.
Qed.

Lemma call_chain_ok c question r c' (w : world (session_state (Chain L))) :
  chain_call L c question = Ok (r, c') ->
  call_chain L (Some c) question w
  = (Done r, mkWorld (set_conversation (Some c') (ss w))
                     (trace w ++ [EvCall "chain"])).
Proof.
  intros E. unfold call_chain. step. unfold lift. rewrite E. reflexivity.
Qed.

Lemma refer_chat_with_chain q c r c' ms h p tr :
  chain_call L c q = Ok (r, c') ->
  let w := mkWorld (mkSession (Some (Some c)) h p (Some ms)) tr in
  let out := streamlit_refer.chat L q w in
  fst out = Raised (NameError "get_openai_callback")
  /\ called_chain (trace (snd out)) = true
  /\ messages (ss (snd out)) = Some (ms ++ [mkMessage "user" q])%list.
Proof.
  intros E w out. subst out w. unfold streamlit_refer.chat.
  do 6 step. rewrite (bind_done _ _ _ _ _ (call_chain_ok _ _ _ _ _ E)).
  cbn. repeat split.
  unfold called_chain. rewrite !existsb_app. cbn.
  now rewrite !orb_true_r.
Qed.

End ReferChat.

Lemma refer_main_adds_no_reply (L : Lib) (i : inputs) :
  keeps (extends (refer_added i)) (streamlit_refer.main L i).
Proof.
  apply refer_keeps_main.
  - apply extends_refl.
  - apply extends_trans.
  - apply extends_same.
  - apply keeps_append_message. now right.
  - intros s. apply extends_init_messages. now left.
Qed.

(** C2, amended.  In [streamlit_refer.py] no run adds an assistant reply
    to the transcript: what a run adds is the seeded greeting or the
    question.  When the session holds a chain and the chain call for the
    question returns, the turn evaluates [get_openai_callback], which the
    module never binds, and ends in a [NameError] after the chain call,
    with the question as the last message. *)
Theorem refer_chat_turn_hits_unbound_callback :
  forall (L : Lib) (i : inputs) (s : session_state (Chain L)),
    let out := run (streamlit_refer.main L i) s in
    extends (refer_added i) s (ss (snd out))
    /\ (forall c r c',
           process i = false ->
           query i <> "" ->
           conversation s = Some (Some c) ->
           StreamlitChatMessageHistory L "chat_messages" = Ok tt ->
           chain_call L c (query i) = Ok (r, c') ->
           fst out = Raised (NameError "get_openai_callback")
           /\ called_chain (trace (snd out)) = true
           /\ messages (ss (snd out))
              = Some (transcript (init_messages streamlit_refer.greeting s)
                      ++ [mkMessage "user" (query i)])%list).
Proof.
  intros L i s out. split.
  - apply (refer_main_adds_no_reply L i (mkWorld s [])).
  - intros c r c' Hp Hq Hc Hh Hcall. subst out.
    destruct i as [files key p q]. simpl in Hp, Hq, Hcall |- *. subst p.
    destruct q as [|a q]; [contradiction|].
    unfold run, streamlit_refer.main. cbn [process query when].
    destruct s as [conv [h|] [p|] [ms|]]; simpl in Hc; subst conv.
    all: do 8 step; cbn [ss trace].
    all: rewrite (bind_done _ _ _ _ _ (refer_display_loop L _ _)).
    all: rewrite Hh; step.
    all: change (when (truthy_str (String a q)) ?m) with m.
    all: cbn [ss trace init_messages init_processComplete init_chat_history
                 init_conversation set_messages set_conversation
                 set_chat_history set_processComplete messages conversation
                 chat_history processComplete transcript].
    all: exact (refer_chat_with_chain L _ c r c' _ _ _ _ Hcall).
Qed.

Lemma refer_chat_turn_hits_unbound_callback_witness :
  let i := mkInputs [] "" false "hello" in
  let s := Demo.processed streamlit_refer.greeting in
  let out := run (streamlit_refer.main Demo.lib i) s in
  extends (refer_added i) s (ss (snd out))
  /\ fst out = Raised (NameError "get_openai_callback")
  /\ called_chain (trace (snd out)) = true
  /\ messages (ss (snd out))
     = Some [streamlit_refer.greeting; mkMessage "user" "hello"].
Proof.
  intros i s out.
  pose proof (refer_chat_turn_hits_unbound_callback Demo.lib i s)
    as [Hadded Hturn].
  split; [exact Hadded|].
  apply (Hturn 0 (mkChainResult "re: hello"
                    [Demo.page "report.pdf" "first chunk";
                     Demo.page "report.pdf" "second chunk"] []) 1).
  - reflexivity.
  - discriminate.
  - reflexivity.
  - reflexivity.
  - reflexivity.
Defined.

(** A question asked before any Process: the chain call itself fails,
    the name [get_openai_callback] is never reached. *)
Lemma refer_chat_turn_without_chain_is_type_error :
  let out := run (streamlit_refer.main Demo.lib (mkInputs [] "" false "hello"))
                 fresh in
  fst out = Raised (TypeError "'NoneType' object is not callable")
  /\ fst out <> Raised (NameError "get_openai_callback")
  /\ called_chain (trace (snd out)) = false.
Proof.
  cbv zeta. split; [reflexivity|]. split; [discriminate|reflexivity].
Qed.


(** ** A question in test.py *)

Section TestChat.
Context (L : Lib).

Lemma test_display_loop ms (w : world (session_state (Chain L))) :
  for_each ms (fun m =>
    test.st_ L (EvWrite (role m ++ ": " ++ content m))) w
  = (Done tt, mkWorld (ss w) (trace w ++ flat_map test_shown ms)).
Proof.
  apply for_each_emits. intros m w0. reflexivity.
Qed.

Lemma test_cite_loop docs (w : world (session_state (Chain L))) :
  Forall (fun d => source_of d <> None) docs ->
  for_each docs (fun doc =>
    test.name_ L "st" ;;
    source <- lift (getitem (metadata doc) "source") ;;
    emit (EvMarkdown ("- **Source**: " ++ source) None) ;;
    test.st_ L (EvMarkdown ("```" ++ page_content doc ++ "```") None)) w
  = (Done tt,
     mkWorld (ss w) (trace w ++ flat_map (fun d => test_cites (label_of d) d)
                                         docs)).
Proof.
  intros Hdocs. revert w.
  induction Hdocs as [|d docs Hd _ IH]; intros w; cbn [for_each flat_map].
  - unfold ret. rewrite app_nil_r. now destruct w.
  - assert (E : getitem (metadata d) "source" = Ok (label_of d)).
    { unfold label_of, source_of in *.
      destruct (getitem (metadata d) "source"); [reflexivity|contradiction]. }
    erewrite bind_done.
    2:{ step. rewrite E. do 2 step. reflexivity. }
    rewrite IH. cbn [ss trace]. unfold test_cites.
    now rewrite <- !app_assoc.
Qed.

(** The loop over the retrieved chunks leaves the session alone, also
    when a chunk has no [source]. *)
Lemma test_cite_loop_frame docs (w : world (session_state (Chain L))) :
  ss (snd (for_each docs (fun doc =>
    test.name_ L "st" ;;
    source <- lift (getitem (metadata doc) "source") ;;
    emit (EvMarkdown ("- **Source**: " ++ source) None) ;;
    test.st_ L (EvMarkdown ("```" ++ page_content doc ++ "```") None)) w))
  = ss w.
Proof.
  symmetry.
  pose proof (@eq_refl (session_state (Chain L))) as Hrefl.
  pose proof (@eq_trans (session_state (Chain L))) as Htrans.
  apply (keeps_for_each eq Hrefl Htrans).
  intros doc. unfold test.name_, test.st_. frame.
Qed.

Lemma test_chat_with_chain q c r c' ms h tr :
  chain_call L c q = Ok (r, c') ->
  let w := mkWorld (mkSession (Some (Some c)) h (Some true) (Some ms)) tr in
  ss (snd (test.chat L q w))
  = mkSession (Some (Some c')) h (Some true)
              (Some (ms ++ [mkMessage "user" q;
                            mkMessage "assistant" (answer r)])%list).
Proof.
  intros E w. subst w. unfold test.chat. do 2 step. cbn match. do 2 step.
  rewrite (bind_done _ _ _ _ _ (call_chain_ok L _ _ _ _ _ E)).
  do 2 step. rewrite test_cite_loop_frame. cbn.
  now rewrite <- app_assoc.
Qed.

Lemma test_chat_cites q c r c' ms h (w : world (session_state (Chain L))) :
  ss w = mkSession (Some (Some c)) h (Some true) (Some ms) ->
  chain_call L c q = Ok (r, c') ->
  Forall (fun d => source_of d <> None) (source_documents r) ->
  test.chat L q w
  = (Done tt,
     mkWorld (mkSession (Some (Some c')) h (Some true)
                (Some (ms ++ [mkMessage "user" q;
                              mkMessage "assistant" (answer r)])%list))
             (trace w ++ [EvSpinner "Thinking..."; EvCall "chain";
                          EvExpander "참고 문서 확인"]
                 ++ flat_map (fun d => test_cites (label_of d) d)
                             (source_documents r))).
Proof.
  destruct w as [s0 tr]. simpl. intros -> E Hdocs.
  unfold test.chat. do 2 step. cbn match. do 2 step.
  rewrite (bind_done _ _ _ _ _ (call_chain_ok L _ _ _ _ _ E)).
  do 2 step. rewrite (test_cite_loop _ _ Hdocs). cbn.
  now rewrite <- !app_assoc.
Qed.

End TestChat.

(** ** The labels on the page *)

Lemma cited_app tr1 tr2 : cited (tr1 ++ tr2) = (cited tr1 ++ cited tr2)%list.
Proof. apply flat_map_app. Qed.

Lemma cited_shown ms : cited (flat_map test_shown ms) = [].
Proof. induction ms as [|m ms IH]; [reflexivity|exact IH]. Qed.

Lemma cited_cites docs :
  cited (flat_map (fun d => test_cites (label_of d) d) docs)
  = map label_of docs.
Proof.
  induction docs as [|d docs IH]; [reflexivity|].
  cbn [flat_map map]. rewrite cited_app, IH. reflexivity.
Qed.


Section TestAsk.
Context (L : Lib) (i : inputs) (s : session_state (Chain L)).
Context (c c' : Chain L) (r : ChainResult).
Hypothesis no_process : process i = false.
Hypothesis asked : query i <> "".
Hypothesis complete : processComplete s = Some true.
Hypothesis built : conversation s = Some (Some c).
Hypothesis answered : chain_call L c (query i) = Ok (r, c').

Lemma test_ask_session :
  ss (snd (run (test.main L i) s))
  = mkSession (Some (Some c')) (chat_history (init_chat_history s))
              (Some true)
              (Some (transcript (init_messages test.greeting s)
                     ++ [mkMessage "user" (query i);
                         mkMessage "assistant" (answer r)])%list).
Proof.
  destruct i as [files key p q]. simpl in no_process, asked, answered |- *.
  subst p. destruct q as [|a q]; [contradiction|].
  unfold run, test.main. cbn [process query when].
  destruct s as [conv [h|] pc [ms|]]; simpl in complete, built;
    subst conv pc.
  all: do 8 step; cbn [ss trace].
  all: rewrite (bind_done _ _ _ _ _ (test_display_loop L _ _)).
  all: step.
  all: change (when true ?m) with m.
  all: change (when (truthy_str (String a q)) ?m) with m.
  all: cbn [ss trace init_messages init_processComplete init_chat_history
               init_conversation set_messages set_conversation
               set_chat_history set_processComplete messages conversation
               chat_history processComplete transcript].
  all: exact (test_chat_with_chain L _ c r c' _ _ _ answered).
Qed.

Hypothesis labelled :
  Forall (fun d => source_of d <> None) (source_documents r).

Lemma test_ask_page :
  fst (run (test.main L i) s) = Done tt
  /\ cited (trace (snd (run (test.main L i) s)))
     = map label_of (source_documents r).
Proof.
  destruct i as [files key p q]. simpl in no_process, asked, answered |- *.
  subst p. destruct q as [|a q]; [contradiction|].
  unfold run, test.main. cbn [process query when].
  destruct s as [conv [h|] pc [ms|]]; simpl in complete, built;
    subst conv pc.
  all: do 8 step; cbn [ss trace].
  all: rewrite (bind_done _ _ _ _ _ (test_display_loop L _ _)).
  all: step.
  all: change (when true ?m) with m.
  all: change (when (truthy_str (String a q)) ?m) with m.
  all: cbn [ss trace init_messages init_processComplete init_chat_history
               init_conversation set_messages set_conversation
               set_chat_history set_processComplete messages conversation
               chat_history processComplete transcript].
  all: erewrite test_chat_cites;
    [|reflexivity|exact answered|exact labelled].
  all: cbn [fst snd trace]; split; [reflexivity|].
  all: rewrite !cited_app, cited_shown, cited_cites; reflexivity.
Qed.

End TestAsk.

Lemma refer_main_append_only (L : Lib) (i : inputs) s :
  extends (fun _ => True) s (ss (snd (run (streamlit_refer.main L i) s))).
Proof.
  apply (extends_weaken (refer_added i)); [trivial|].
  apply (refer_main_adds_no_reply L i (mkWorld s [])).
Qed.

Lemma test_main_append_only (L : Lib) (i : inputs) s :
  extends (fun _ => True) s (ss (snd (run (test.main L i) s))).
Proof.
  apply (test_keeps_main L i (extends (fun _ => True))).
  - apply extends_refl.
  - apply extends_trans.
  - apply extends_same.
  - now apply keeps_append_message.
  - intros s0. now apply extends_init_messages.
  - intros a. now apply keeps_append_message.
Qed.

(** X15.  The transcript only grows: whatever a run of either script
    does, the messages the session held before are still there, in the
    same order, at the front of the messages it holds after. *)
Theorem transcript_is_append_only :
  forall (L : Lib) (i : inputs) (s : session_state (Chain L)),
    extends (fun _ => True) s (ss (snd (run (streamlit_refer.main L i) s)))
    /\ extends (fun _ => True) s (ss (snd (run (test.main L i) s))).
Proof.
  intros L i s. split.
  - apply refer_main_append_only.
  - apply test_main_append_only.
Qed.

(** X16.  In [test.py], two questions in a row whose chain calls return
    add exactly four entries to the transcript, in call order: user,
    assistant, user, assistant.  They come after what the transcript
    held before, which is the seeded greeting alone where [messages] was
    not yet set, and each of the two runs only appends. *)
Theorem two_asks_append_four_entries :
  forall (L : Lib) (i1 i2 : inputs) (s : session_state (Chain L))
         (c c1 c2 : Chain L) (r1 r2 : ChainResult),
    process i1 = false -> process i2 = false ->
    query i1 <> "" -> query i2 <> "" ->
    processComplete s = Some true ->
    conversation s = Some (Some c) ->
    chain_call L c (query i1) = Ok (r1, c1) ->
    chain_call L c1 (query i2) = Ok (r2, c2) ->
    let s1 := ss (snd (run (test.main L i1) s)) in
    let s2 := ss (snd (run (test.main L i2) s1)) in
    transcript s2
    = (transcript (init_messages test.greeting s)
       ++ [mkMessage "user" (query i1); mkMessage "assistant" (answer r1);
           mkMessage "user" (query i2); mkMessage "assistant" (answer r2)])%list
    /\ (messages s = None ->
        transcript s2
        = [test.greeting;
           mkMessage "user" (query i1); mkMessage "assistant" (answer r1);
           mkMessage "user" (query i2); mkMessage "assistant" (answer r2)])
    /\ extends (fun _ => True) s s1
    /\ extends (fun _ => True) s1 s2.
Proof.
  intros L i1 i2 s c c1 c2 r1 r2 Hp1 Hp2 Hq1 Hq2 Hpc Hc Hr1 Hr2 s1 s2.
  assert (E1 : s1 = mkSession (Some (Some c1)) (chat_history (init_chat_history s))
                     (Some true)
                     (Some (transcript (init_messages test.greeting s)
                            ++ [mkMessage "user" (query i1);
                                mkMessage "assistant" (answer r1)])%list))
    by (apply (test_ask_session L i1 s c c1 r1); assumption).
  assert (E2 : transcript s2
               = (transcript (init_messages test.greeting s1)
                  ++ [mkMessage "user" (query i2);
                      mkMessage "assistant" (answer r2)])%list).
  { unfold s2.
    rewrite (test_ask_session L i2 s1 c1 c2 r2); trivial;
      rewrite E1; reflexivity. }
  assert (E : transcript s2
              = (transcript (init_messages test.greeting s)
                 ++ [mkMessage "user" (query i1);
                     mkMessage "assistant" (answer r1);
                     mkMessage "user" (query i2);
                     mkMessage "assistant" (answer r2)])%list).
  { rewrite E2, E1. cbn [init_messages messages transcript].
    now rewrite <- app_assoc. }
  repeat split.
  - exact E.
  - intros Hnone. rewrite E. unfold init_messages. now rewrite Hnone.
  - apply test_main_append_only.
  - apply test_main_append_only.
Qed.

Lemma two_asks_append_four_entries_witness :
  let s := Demo.processed test.greeting in
  let s1 := ss (snd (run (test.main Demo.lib (mkInputs [] "" false "one")) s)) in
  let s2 := ss (snd (run (test.main Demo.lib (mkInputs [] "" false "two")) s1)) in
  transcript s2
  = [test.greeting;
     mkMessage "user" "one"; mkMessage "assistant" "re: one";
     mkMessage "user" "two"; mkMessage "assistant" "re: two"]
  /\ extends (fun _ => True) s s1
  /\ extends (fun _ => True) s1 s2.
Proof.
  intros s s1 s2.
  assert (H : process (mkInputs [] "" false "one") = false
              /\ process (mkInputs [] "" false "two") = false
              /\ query (mkInputs [] "" false "one") <> ""
              /\ query (mkInputs [] "" false "two") <> ""
              /\ processComplete s = Some true
              /\ conversation s = Some (Some 0)
              /\ chain_call Demo.lib 0 "one"
                 = Ok (mkChainResult "re: one"
                         [Demo.page "report.pdf" "first chunk";
                          Demo.page "report.pdf" "second chunk"] [], 1)
              /\ chain_call Demo.lib 1 "two"
                 = Ok (mkChainResult "re: two"
                         [Demo.page "report.pdf" "first chunk";
                          Demo.page "report.pdf" "second chunk"] [], 2)).
  { repeat split; discriminate. }
  destruct H as (H1 & H2 & H3 & H4 & H5 & H6 & H7 & H8).
  destruct (two_asks_append_four_entries
              Demo.lib _ _ s 0 1 2 _ _ H1 H2 H3 H4 H5 H6 H7 H8)
    as (Hfour & _ & Hs1 & Hs2).
  split; [exact Hfour|split; [exact Hs1|exact Hs2]].
Defined.

(** With the demo library, where a Process has gone through: after two
    questions the transcript has five entries, the first is the
    greeting. *)
Lemma two_asks_leave_five_entries :
  let s := Demo.processed test.greeting in
  let s1 := ss (snd (run (test.main Demo.lib (mkInputs [] "" false "one")) s)) in
  let s2 := ss (snd (run (test.main Demo.lib (mkInputs [] "" false "two")) s1)) in
  map role (transcript s2)
  = ["system"; "user"; "assistant"; "user"; "assistant"]
  /\ length (transcript s2) <> 4.
Proof.
  cbv zeta. split; [reflexivity|]. vm_compute. discriminate.
Qed.

Lemma demo_process_gives_processed :
  ss (snd (run (test.main Demo.lib (mkInputs [Demo.sheet] "sk" true "")) fresh))
  = Demo.processed test.greeting.
Proof. reflexivity. Qed.

(** X17.  In [test.py], when the chain call for a question returns and
    every retrieved chunk has a [source], the run ends normally and the
    labels it shows are the [source] entries of the retrieved chunks,
    one for every chunk and in the order the chain returned them;
    nothing removes a label that comes twice. *)
Theorem cited_labels_follow_retrieved_chunks :
  forall (L : Lib) (i : inputs) (s : session_state (Chain L))
         (c c' : Chain L) (r : ChainResult),
    process i = false ->
    query i <> "" ->
    processComplete s = Some true ->
    conversation s = Some (Some c) ->
    chain_call L c (query i) = Ok (r, c') ->
    Forall (fun d => source_of d <> None) (source_documents r) ->
    let out := run (test.main L i) s in
    fst out = Done tt
    /\ cited (trace (snd out)) = map label_of (source_documents r).
Proof.
  intros L i s c c' r Hp Hq Hpc Hc Hr Hdocs out.
  apply (test_ask_page L i s c c' r); assumption.
Qed.

Lemma cited_labels_follow_retrieved_chunks_witness :
  let out := run (test.main Demo.lib (mkInputs [] "" false "hi"))
                 (Demo.processed test.greeting) in
  fst out = Done tt
  /\ cited (trace (snd out))
     = map label_of [Demo.page "report.pdf" "first chunk";
                     Demo.page "report.pdf" "second chunk"].
Proof.
  apply (cited_labels_follow_retrieved_chunks
           Demo.lib (mkInputs [] "" false "hi") (Demo.processed test.greeting)
           0 1
           (mkChainResult "re: hi"
              [Demo.page "report.pdf" "first chunk";
               Demo.page "report.pdf" "second chunk"] [])).
  - reflexivity.
  - discriminate.
  - reflexivity.
  - reflexivity.
  - reflexivity.
  - repeat constructor; discriminate.
Defined.

(** With the demo chain, which retrieves two chunks of one file: the
    name of the file is shown twice. *)
Lemma cited_labels_repeat :
  let out := run (test.main Demo.lib (mkInputs [] "" false "hi"))
                 (Demo.processed test.greeting) in
  cited (trace (snd out)) = ["report.pdf"; "report.pdf"]
  /\ ~ NoDup (cited (trace (snd out))).
Proof.
  cbv zeta. split; [reflexivity|].
  change (~ NoDup ["report.pdf"; "report.pdf"]).
  intros H. inversion H as [|x l Hin _]. apply Hin. now left.
Qed.

(** ** A question before any Process *)

Lemma called_chain_shown ms : called_chain (flat_map test_shown ms) = false.
Proof. induction ms as [|m ms IH]; [reflexivity|exact IH]. Qed.

(** [test.py] shows the question field only once a Process is complete:
    before that no run reaches the chain. *)
Lemma test_question_before_process_is_not_asked (L : Lib) i s :
  process i = false ->
  processComplete s <> Some true ->
  let out := run (test.main L i) s in
  fst out = Done tt
  /\ called_chain (trace (snd out)) = false
  /\ messages (ss (snd out)) = messages (init_messages test.greeting s).
Proof.
  intros Hp Hpc out. subst out.
  destruct i as [files key p q]. simpl in Hp. subst p.
  unfold run, test.main. cbn [process query when].
  destruct s as [[conv|] [h|] [[|]|] [ms|]]; try (now destruct Hpc).
  all: do 8 step; cbn [ss trace].
  all: rewrite (bind_done _ _ _ _ _ (test_display_loop L _ _)).
  all: step.
  all: change (when false ?m) with (@ret (session_state (Chain L)) unit tt).
  all: cbn; repeat split.
  all: unfold called_chain; rewrite ?existsb_app; cbn.
  all: try apply called_chain_shown.
Qed.

(** [streamlit_refer.py] has no such check: the question goes to
    [st.session_state.conversation], which is still [None]. *)
Lemma refer_question_before_process_raises (L : Lib) i s :
  process i = false ->
  query i <> "" ->
  conversation s = None \/ conversation s = Some None ->
  StreamlitChatMessageHistory L "chat_messages" = Ok tt ->
  fst (run (streamlit_refer.main L i) s)
  = Raised (TypeError "'NoneType' object is not callable").
Proof.
  intros Hp Hq Hc Hh.
  destruct i as [files key p q]. simpl in Hp, Hq. subst p.
  destruct q as [|a q]; [contradiction|].
  unfold run, streamlit_refer.main. cbn [process query when].
  destruct s as [conv [h|] [pc|] [ms|]]; simpl in Hc;
    destruct Hc as [-> | ->].
  all: do 8 step; cbn [ss trace].
  all: rewrite (bind_done _ _ _ _ _ (refer_display_loop L _ _)).
  all: rewrite Hh; step.
  all: change (when (truthy_str (String a q)) ?m) with m.
  all: unfold streamlit_refer.chat; do 6 step; reflexivity.
Qed.

(** C7.  In [streamlit_refer.py] a question asked in a new session, with
    no index built, ends the run in a [TypeError]; the same question in
    [test.py] raises nothing. *)
Theorem refer_question_on_unbuilt_index_raises :
  fst (run (streamlit_refer.main Demo.lib (mkInputs [] "" false "hi")) fresh)
  = Raised (TypeError "'NoneType' object is not callable")
  /\ fst (run (test.main Demo.lib (mkInputs [] "" false "hi")) fresh)
     = Done tt.
Proof.
  split.
  - apply refer_question_before_process_raises;
      [reflexivity|discriminate|now left|reflexivity].
  - apply (test_question_before_process_is_not_asked
             Demo.lib (mkInputs [] "" false "hi") fresh);
      [reflexivity|discriminate].
Qed.

(** ** What get_text_chunks hands to the splitter *)

(** Both scripts ask for windows of 900 with an overlap of 100, measured
    by their [tiktoken_len]; what comes back is the splitter's doing. *)
Lemma get_text_chunks_configuration (L : Lib) docs w :
  streamlit_refer.get_text_chunks L docs w
  = run_splitting (streamlit_refer.tiktoken_len L)
      (split_documents L 900 100 docs)
      (mkWorld (ss w) (trace w ++ [EvCall "RecursiveCharacterTextSplitter"]))
  /\ test.get_text_chunks L docs w
     = run_splitting (test.tiktoken_len L)
         (split_documents L 900 100 docs)
         (mkWorld (ss w) (trace w ++ [EvCall "RecursiveCharacterTextSplitter"])).
Proof. split; reflexivity. Qed.

(** In [streamlit_refer.py] the length of a text is the number of its
    [cl100k_base] tokens. *)
Lemma refer_tiktoken_len_counts_tokens (L : Lib) text tokens w :
  tiktoken_encode L "cl100k_base" text = Ok tokens ->
  streamlit_refer.tiktoken_len L text w
  = (Done (length tokens), mkWorld (ss w) (trace w ++ [EvCall "tiktoken"])).
Proof.
  intros E. unfold streamlit_refer.tiktoken_len, call, lift.
  rewrite E. reflexivity.
Qed.

(** ** Frames for the whole session state *)

(** A relation that holds across every assignment the two scripts make
    which a run can reach. *)
Section SessionFrames.
Context (L : Lib) (i : inputs).
Context (R : session_state (Chain L) -> session_state (Chain L) -> Prop).
Hypothesis R_refl : forall s, R s s.
Hypothesis R_trans : forall s1 s2 s3, R s1 s2 -> R s2 s3 -> R s1 s3.
Hypothesis R_init_conversation : forall s, R s (init_conversation s).
Hypothesis R_init_chat_history : forall s, R s (init_chat_history s).
Hypothesis R_init_processComplete : forall s, R s (init_processComplete s).
Hypothesis R_init_messages : forall g s, R s (init_messages g s).
Hypothesis R_chain : forall c s, R s (set_conversation (Some c) s).
Hypothesis R_complete : forall s, R s (set_processComplete true s).
Hypothesis R_append : forall m, keeps R (append_message m).

Ltac link tac := apply keeps_bind; [assumption|tac|intros].

Ltac leaf :=
  first
    [ assumption
    | apply R_append
    | apply keeps_modify; solve [auto]
    | apply keeps_getattr; assumption
    | frame ].

Lemma call_chain_frames chain question :
  keeps R (call_chain L chain question).
Proof.
  unfold call_chain. destruct chain as [c|]; [|frame].
  do 2 link leaf. link ltac:(apply keeps_modify; auto). frame.
Qed.

Lemma refer_process_files_frames :
  keeps R (streamlit_refer.process_files L i).
Proof.
  unfold streamlit_refer.process_files.
  do 3 link leaf.
  link ltac:(apply refer_keeps_get_text; assumption). link leaf.
  link ltac:(apply refer_keeps_get_text_chunks; assumption). link leaf.
  link ltac:(apply refer_keeps_get_vectorstore; assumption). link leaf.
  link ltac:(apply refer_keeps_get_conversation_chain; assumption).
  link ltac:(apply keeps_modify; auto). apply keeps_modify; auto.
Qed.

Lemma test_process_files_frames : keeps R (test.process_files L i).
Proof.
  unfold test.process_files.
  do 3 link leaf.
  link ltac:(apply test_keeps_get_text; assumption). link leaf.
  link ltac:(apply test_keeps_get_text_chunks; assumption). link leaf.
  link ltac:(apply test_keeps_get_vectorstore; assumption). link leaf.
  link ltac:(apply test_keeps_get_conversation_chain; assumption).
  link ltac:(apply keeps_modify; auto). apply keeps_modify; auto.
Qed.

Lemma refer_chat_frames q : keeps R (streamlit_refer.chat L q).
Proof.
  unfold streamlit_refer.chat.
  do 6 link leaf. link ltac:(apply call_chain_frames).
  apply keeps_bind_dead.
  - unfold streamlit_refer.name_. frame.
  - intros ? ?. cbv. discriminate.
Qed.

Lemma test_chat_frames q : keeps R (test.chat L q).
Proof.
  unfold test.chat. do 2 link leaf.
  match goal with a : option (Chain L) |- _ => destruct a as [c|] end;
    [|frame].
  do 2 link leaf. link ltac:(apply call_chain_frames). link leaf.
  unfold test.st_, test.name_. frame.
Qed.

Lemma refer_main_frames : keeps R (streamlit_refer.main L i).
Proof.
  unfold streamlit_refer.main. do 5 link leaf.
  link ltac:(apply keeps_when; [assumption|];
             apply refer_process_files_frames).
  do 4 link leaf.
  apply keeps_when; [assumption|]. apply refer_chat_frames.
Qed.

Lemma test_main_frames : keeps R (test.main L i).
Proof.
  unfold test.main. do 6 link leaf.
  link ltac:(apply keeps_when; [assumption|];
             apply test_process_files_frames).
  do 3 link leaf.
  do 2 (apply keeps_when; [assumption|]). apply test_chat_frames.
Qed.

End SessionFrames.

Lemma append_message_only_messages {C} (m : message)
      (w : world (session_state C)) :
  let s' := ss (snd (append_message m w)) in
  conversation s' = conversation (ss w)
  /\ chat_history s' = chat_history (ss w)
  /\ processComplete s' = processComplete (ss w).
Proof.
  unfold append_message, getattr, gets, bind, modify. simpl.
  destruct (messages (ss w)); simpl; auto.
Qed.

(** ** What no run changes *)

(** X7.  Neither script ever changes [st.session_state.chat_history]: the one
    assignment, line 78 of [streamlit_refer.py], comes after the unbound
    [get_openai_callback] and is never reached; [test.py] has none. *)
Theorem chat_history_is_never_changed :
  forall (L : Lib) (i : inputs) (s : session_state (Chain L)),
    held_chat_history (ss (snd (run (streamlit_refer.main L i) s)))
    = held_chat_history s
    /\ held_chat_history (ss (snd (run (test.main L i) s)))
       = held_chat_history s.
Proof.
  intros L i s.
  set (R := fun a b : session_state (Chain L) =>
              held_chat_history b = held_chat_history a).
  assert (Hrefl : forall a, R a a) by reflexivity.
  assert (Htrans : forall a b c, R a b -> R b c -> R a c)
    by (unfold R; intros; congruence).
  assert (Hc : forall a, R a (init_conversation a))
    by (intros a; unfold R, init_conversation; now destruct (conversation a)).
  assert (Hh : forall a, R a (init_chat_history a))
    by (intros a; unfold R, init_chat_history, held_chat_history;
        destruct (chat_history a) eqn:E; simpl; now rewrite ?E).
  assert (Hp : forall a, R a (init_processComplete a))
    by (intros a; unfold R, init_processComplete;
        now destruct (processComplete a)).
  assert (Hm : forall g a, R a (init_messages g a))
    by (intros g a; unfold R, init_messages; now destruct (messages a)).
  assert (Happ : forall m, keeps R (append_message m)).
  { intros m w. unfold R, held_chat_history.
    destruct (append_message_only_messages m w) as (_ & E & _).
    now rewrite E. }
  split.
  - apply (refer_main_frames L i R Hrefl Htrans Hc Hh Hp Hm
             (fun _ _ => eq_refl) (fun _ => eq_refl) Happ (mkWorld s [])).
  - apply (test_main_frames L i R Hrefl Htrans Hc Hh Hp Hm
             (fun _ _ => eq_refl) (fun _ => eq_refl) Happ (mkWorld s [])).
Qed.

(** X8.  Once a Process has completed, no later run takes it back: whatever a
    run does (a Process that fails halfway, a question, a chain error),
    [processComplete] stays [True] and [conversation] keeps holding a
    chain. *)
Theorem processed_session_stays_processed :
  forall (L : Lib) (i : inputs) (s : session_state (Chain L)),
    stays_processed s (ss (snd (run (streamlit_refer.main L i) s)))
    /\ stays_processed s (ss (snd (run (test.main L i) s))).
Proof.
  intros L i s.
  set (R := @stays_processed (Chain L)).
  assert (Hrefl : forall a, R a a) by (intros a; split; trivial).
  assert (Htrans : forall a b c, R a b -> R b c -> R a c)
    by (intros a b c [H1 H2] [H3 H4]; split; auto).
  assert (Hc : forall a, R a (init_conversation a)).
  { intros [[c|] h p m]; unfold R, stays_processed, has_chain; simpl;
      split; trivial.
    intros [c Hcontra]. discriminate. }
  assert (Hh : forall a, R a (init_chat_history a))
    by (intros a; unfold init_chat_history; now destruct (chat_history a)).
  assert (Hp : forall a, R a (init_processComplete a)).
  { intros [c h [p|] m]; unfold R, stays_processed, has_chain; simpl;
      split; trivial.
    discriminate. }
  assert (Hm : forall g a, R a (init_messages g a))
    by (intros g a; unfold init_messages; now destruct (messages a)).
  assert (Hchain : forall c a, R a (set_conversation (Some c) a))
    by (intros c a; split; trivial; intros _; now exists c).
  assert (Hdone : forall a, R a (set_processComplete true a))
    by (intros a; split; trivial).
  assert (Happ : forall m, keeps R (append_message m)).
  { intros m w. unfold R, stays_processed, has_chain.
    destruct (append_message_only_messages m w) as (Ec & _ & Ep).
    rewrite Ec, Ep. split; trivial. }
  split.
  - apply (refer_main_frames L i R Hrefl Htrans Hc Hh Hp Hm Hchain Hdone Happ
             (mkWorld s [])).
  - apply (test_main_frames L i R Hrefl Htrans Hc Hh Hp Hm Hchain Hdone Happ
             (mkWorld s [])).
Qed.

Lemma defaults_set_the_keys {C} (s : session_state C) :
  keys_set (init_processComplete (init_chat_history (init_conversation s))).
Proof.
  destruct s as [[c|] [h|] [p|] m]; repeat split; discriminate.
Qed.

(** X9.  After any run of either [main], however it ends, the session state
    has [conversation], [chat_history] and [processComplete] set; after a
    run of [test.py] it has [messages] too. *)
Theorem every_run_leaves_the_keys_set :
  forall (L : Lib) (i : inputs) (s : session_state (Chain L)),
    keys_set (ss (snd (run (streamlit_refer.main L i) s)))
    /\ keys_set (ss (snd (run (test.main L i) s)))
    /\ messages (ss (snd (run (test.main L i) s))) <> None.
Proof.
  intros L i s.
  set (R := fun a b : session_state (Chain L) =>
              (keys_set a -> keys_set b)
              /\ (messages a <> None -> messages b <> None)).
  assert (Hrefl : forall a, R a a) by (intros a; split; trivial).
  assert (Htrans : forall a b c, R a b -> R b c -> R a c)
    by (intros a b c [H1 H2] [H3 H4]; split; auto).
  assert (Hc : forall a, R a (init_conversation a))
    by (intros [[c|] h p m]; split; trivial;
        intros (H & _); now destruct H).
  assert (Hh : forall a, R a (init_chat_history a))
    by (intros [c [h|] p m]; split; trivial;
        intros (_ & H & _); now destruct H).
  assert (Hp : forall a, R a (init_processComplete a))
    by (intros [c h [p|] m]; split; trivial;
        intros (_ & _ & H); now destruct H).
  assert (Hm : forall g a, R a (init_messages g a))
    by (intros g [c h p [m|]]; split; trivial; intros H; now destruct H).
  assert (Hchain : forall c a, R a (set_conversation (Some c) a)).
  { intros c a. split; trivial. intros (_ & H2 & H3).
    repeat split; trivial. discriminate. }
  assert (Hdone : forall a, R a (set_processComplete true a)).
  { intros a. split; trivial. intros (H1 & H2 & _).
    repeat split; trivial. discriminate. }
  assert (Happ : forall m, keeps R (append_message m)).
  { intros m w. unfold R, keys_set.
    destruct (append_message_only_messages m w) as (Ec & Eh & Ep).
    rewrite Ec, Eh, Ep. split; trivial.
    unfold append_message, getattr, gets, bind, modify. simpl.
    destruct (messages (ss w)) eqn:E; simpl; [discriminate|].
    now rewrite E. }
  assert (Hrefer : ss (snd (run (streamlit_refer.main L i) s))
                   = ss (snd (run (streamlit_refer.main L i)
                                (init_processComplete
                                   (init_chat_history (init_conversation s)))))).
  { unfold run, streamlit_refer.main. do 5 step. symmetry. do 5 step.
    destruct s as [[c|] [h|] [p|] m]; reflexivity. }
  assert (Htest : ss (snd (run (test.main L i) s))
                  = ss (snd (run (test.main L i)
                               (init_processComplete
                                  (init_chat_history
                                     (init_conversation
                                        (init_messages test.greeting s))))))).
  { unfold run, test.main. do 6 step. symmetry. do 6 step.
    destruct s as [[c|] [h|] [p|] [m|]]; reflexivity. }
  rewrite Hrefer, Htest. split; [|split].
  - apply (refer_main_frames L i R Hrefl Htrans Hc Hh Hp Hm Hchain Hdone Happ
             (mkWorld _ [])).
    apply defaults_set_the_keys.
  - apply (test_main_frames L i R Hrefl Htrans Hc Hh Hp Hm Hchain Hdone Happ
             (mkWorld _ [])).
    apply defaults_set_the_keys.
  - apply (test_main_frames L i R Hrefl Htrans Hc Hh Hp Hm Hchain Hdone Happ
             (mkWorld _ [])).
    destruct s as [[c|] [h|] [p|] [m|]]; simpl; discriminate.
Qed.

(** ** The Process pipeline as a whole *)

Lemma all_or_nothing_bind {C A} (m : M (session_state C) A)
      (k : A -> M (session_state C) unit) :
  keeps eq m ->
  (forall a w, all_or_nothing (ss w) (k a w)) ->
  forall w, all_or_nothing (ss w) (bind m k w).
Proof.
  intros Hm Hk w. unfold bind. specialize (Hm w).
  destruct (m w) as [[a| |e] w1]; simpl in Hm.
  - rewrite Hm. apply Hk.
  - right. split; [discriminate|now symmetry].
  - right. split; [discriminate|now symmetry].
Qed.

Ltac silent := apply all_or_nothing_bind; [|intros].

(** X1.  Lines 40-53 of [streamlit_refer.py] and 39-52 of [test.py] assign to
    the session state only after every library call has returned: a
    Process that stops at the check or fails anywhere, in a loader, the
    splitter, the embedding, the index or the chain, leaves the session
    state untouched; one that goes through sets both [conversation] and
    [processComplete]. *)
Theorem process_is_all_or_nothing :
  forall (L : Lib) (i : inputs) (w : world (session_state (Chain L))),
    all_or_nothing (ss w) (streamlit_refer.process_files L i w)
    /\ all_or_nothing (ss w) (test.process_files L i w).
Proof.
  intros L i w.
  pose proof (@eq_refl (session_state (Chain L))) as Hrefl.
  pose proof (@eq_trans (session_state (Chain L))) as Htrans.
  split.
  - unfold streamlit_refer.process_files.
    silent; [unfold streamlit_refer.st_, streamlit_refer.name_; frame|].
    silent; [unfold streamlit_refer.st_, streamlit_refer.name_; frame|].
    silent; [unfold streamlit_refer.name_; frame|].
    silent; [now apply refer_keeps_get_text|].
    silent; [unfold streamlit_refer.name_; frame|].
    silent; [now apply refer_keeps_get_text_chunks|].
    silent; [unfold streamlit_refer.name_; frame|].
    silent; [now apply refer_keeps_get_vectorstore|].
    silent; [unfold streamlit_refer.name_; frame|].
    silent; [now apply refer_keeps_get_conversation_chain|].
    left. split; [reflexivity|]. now eexists.
  - unfold test.process_files.
    silent; [unfold test.st_, test.name_; frame|].
    silent; [unfold test.st_, test.name_; frame|].
    silent; [unfold test.name_; frame|].
    silent; [now apply test_keeps_get_text|].
    silent; [unfold test.name_; frame|].
    silent; [now apply test_keeps_get_text_chunks|].
    silent; [unfold test.name_; frame|].
    silent; [now apply test_keeps_get_vectorstore|].
    silent; [unfold test.name_; frame|].
    silent; [now apply test_keeps_get_conversation_chain|].
    left. split; [reflexivity|]. now eexists.
Qed.

(** ** Loading a batch file by file *)

Lemma after_loaded_bind {S A} acc (m : M S A) (k : A -> M S (list pyobj)) w :
  after_loaded acc (bind m k w)
  = bind m (fun a w1 => after_loaded acc (k a w1)) w.
Proof. unfold bind. now destruct (m w) as [[a| |e] w1]. Qed.

Lemma after_loaded_twice {S} acc1 acc2 (r : outcome (list pyobj) * world S) :
  after_loaded acc1 (after_loaded acc2 r) = after_loaded (acc1 ++ acc2) r.
Proof.
  destruct r as [[l| |e] w]; simpl; trivial. now rewrite app_assoc.
Qed.

Lemma after_loaded_nil {S} (r : outcome (list pyobj) * world S) :
  after_loaded [] r = r.
Proof. now destruct r as [[l| |e] w]. Qed.

Lemma bind_assoc {S A B C} (m : M S A) (k : A -> M S B) (h : B -> M S C) w :
  bind (bind m k) h w = bind m (fun a => bind (k a) h) w.
Proof. unfold bind. now destruct (m w) as [[a| |e] w1]. Qed.

Ltac into_binds :=
  repeat (rewrite after_loaded_bind; apply bind_ext; intros).

Section Batches.
Context (L : Lib).

Lemma refer_loop_accumulates docs :
  forall acc w,
    streamlit_refer.get_text_loop L docs acc w
    = after_loaded acc (streamlit_refer.get_text_loop L docs [] w).
Proof.
  induction docs as [|d docs IH]; intros acc w.
  - simpl. unfold ret. now rewrite app_nil_r.
  - cbn [streamlit_refer.get_text_loop].
    repeat destruct (_ =? _); into_binds;
      rewrite IH; symmetry; rewrite IH, after_loaded_twice;
      now rewrite ?app_nil_l.
Qed.

Lemma test_loop_accumulates docs :
  forall acc w,
    test.get_text_loop L docs acc w
    = after_loaded acc (test.get_text_loop L docs [] w).
Proof.
  induction docs as [|d docs IH]; intros acc w.
  - simpl. unfold ret. now rewrite app_nil_r.
  - cbn [test.get_text_loop].
    repeat destruct (_ =? _); into_binds;
      rewrite IH; symmetry; rewrite IH, after_loaded_twice;
      now rewrite ?app_nil_l.
Qed.

Lemma refer_loop_app first rest :
  forall acc w,
    streamlit_refer.get_text_loop L (first ++ rest) acc w
    = bind (streamlit_refer.get_text_loop L first acc)
           (streamlit_refer.get_text_loop L rest) w.
Proof.
  induction first as [|d first IH]; intros acc w.
  - reflexivity.
  - simpl app. cbn [streamlit_refer.get_text_loop].
    repeat destruct (_ =? _);
      repeat (rewrite bind_assoc; apply bind_ext; intros); apply IH.
Qed.

Lemma test_loop_app first rest :
  forall acc w,
    test.get_text_loop L (first ++ rest) acc w
    = bind (test.get_text_loop L first acc) (test.get_text_loop L rest) w.
Proof.
  induction first as [|d first IH]; intros acc w.
  - reflexivity.
  - simpl app. cbn [test.get_text_loop].
    repeat destruct (_ =? _);
      repeat (rewrite bind_assoc; apply bind_ext; intros); apply IH.
Qed.

End Batches.

(** X3.  Loading a batch is loading its files one after the other: the
    documents of [first ++ rest] are those of [first] followed by those
    of [rest], in upload order, and [rest] is loaded only when [first]
    went through. *)
Theorem get_text_loads_in_upload_order :
  forall (L : Lib) (first rest : list UploadedFile)
         (w : world (session_state (Chain L))),
    streamlit_refer.get_text L (first ++ rest) w
    = bind (streamlit_refer.get_text L first)
           (fun loaded w1 =>
              after_loaded loaded (streamlit_refer.get_text L rest w1)) w
    /\ test.get_text L (first ++ rest) w
       = bind (test.get_text L first)
              (fun loaded w1 =>
                 after_loaded loaded (test.get_text L rest w1)) w.
Proof.
  intros L first rest w.
  unfold streamlit_refer.get_text, test.get_text.
  rewrite refer_loop_app, test_loop_app. split.
  - apply bind_ext. intros loaded w1. apply refer_loop_accumulates.
  - apply bind_ext. intros loaded w1. apply test_loop_accumulates.
Qed.

(** X4.  One file that fails to load fails the batch: when loading the files
    before some point raises, [get_text] on the whole batch raises the
    same exception at the same place, and none of the later files is
    touched. *)
Theorem get_text_fails_with_its_first_bad_file :
  forall (L : Lib) (first rest : list UploadedFile) (e : exn)
         (w w1 : world (session_state (Chain L))),
    (streamlit_refer.get_text L first w = (Raised e, w1) ->
     streamlit_refer.get_text L (first ++ rest) w = (Raised e, w1))
    /\ (test.get_text L first w = (Raised e, w1) ->
        test.get_text L (first ++ rest) w = (Raised e, w1)).
Proof.
  intros L first rest e w w1.
  unfold streamlit_refer.get_text, test.get_text.
  rewrite refer_loop_app, test_loop_app.
  split; intros E; now apply bind_raised.
Qed.

Lemma get_text_fails_with_its_first_bad_file_witness :
  let w := mkWorld (@fresh nat) [] in
  let w1 := mkWorld (@fresh nat) [EvCall "PyPDFLoader"; EvCall "pd.read_csv"] in
  let e := LibraryError "pd.read_csv"
             "EmptyDataError: No columns to parse from file" in
  streamlit_refer.get_text Demo.lib ([Demo.pdf; Demo.blank] ++ [Demo.csv]) w
  = (Raised e, w1)
  /\ test.get_text Demo.lib ([Demo.pdf; Demo.blank] ++ [Demo.csv]) w
     = (Raised e, w1).
Proof.
  intros w w1 e.
  destruct (get_text_fails_with_its_first_bad_file
              Demo.lib [Demo.pdf; Demo.blank] [Demo.csv] e w w1) as [Hr Ht].
  split; [apply Hr|apply Ht]; reflexivity.
Defined.

(** ** What a CSV file loads to *)



(** ** A Process that goes through *)

Section ReferProcess.
Context (L : Lib).

Lemma refer_get_vectorstore_ok chunks emb vs
      (w : world (session_state (Chain L))) :
  HuggingFaceEmbeddings L "jhgan/ko-sroberta-multitask" "cpu" true = Ok emb ->
  FAISS_from_documents L chunks emb = Ok vs ->
  streamlit_refer.get_vectorstore L chunks w
  = (Done vs,
     mkWorld (ss w) (trace w ++ [EvCall "HuggingFaceEmbeddings";
                                 EvCall "FAISS.from_documents"])).
Proof.
  intros Hemb Hvs. unfold streamlit_refer.get_vectorstore, call.
  rewrite Hemb. rewrite bind_assoc. step. rewrite bind_assoc. step. step.
  step. rewrite Hvs. cbn. now rewrite <- app_assoc.
Qed.

Lemma refer_get_conversation_chain_ok vs key llm ret mem chain
      (w : world (session_state (Chain L))) :
  ChatOpenAI L key "gpt-3.5-turbo" 0 = Ok llm ->
  as_retriever L vs "mmr" = Ok ret ->
  ConversationBufferMemory L "chat_history" "answer" = Ok mem ->
  from_llm L llm "stuff" ret mem = Ok chain ->
  streamlit_refer.get_conversation_chain L vs key w
  = (Done chain,
     mkWorld (ss w)
             (trace w ++ [EvCall "ChatOpenAI"; EvCall "as_retriever";
                          EvCall "ConversationBufferMemory";
                          EvCall "ConversationalRetrievalChain.from_llm"])).
Proof.
  intros Hllm Hret Hmem Hchain.
  unfold streamlit_refer.get_conversation_chain, call.
  rewrite Hllm, Hret, Hmem.
  rewrite bind_assoc. step. rewrite bind_assoc. do 5 step.
  rewrite bind_assoc. step. rewrite bind_assoc. do 3 step.
  rewrite Hchain. cbn. now rewrite <- !app_assoc.
Qed.

End ReferProcess.

(** X2.  A Process of [streamlit_refer.py] over a batch that loads and
    chunks: when every library call returns, the chain put into
    [conversation] is the one built from the user's key, model
    [gpt-3.5-turbo] at temperature 0 and chain type [stuff], over an
    [mmr] retriever on the index of the chunks embedded with
    [jhgan/ko-sroberta-multitask]; [processComplete] becomes [True] and
    nothing else of the session changes. *)
Theorem refer_process_builds_the_chain :
  forall (L : Lib) (i : inputs) (w : world (session_state (Chain L)))
         (docs : list pyobj) (chunks : list Document)
         (emb : Embeddings L) (vs : VectorStore L) (llm : LLM L)
         (ret : Retriever L) (mem : Memory L) (chain : Chain L),
    openai_api_key i <> "" ->
    uploaded_files i <> [] ->
    (forall w', fst (streamlit_refer.get_text L (uploaded_files i) w')
                = Done docs) ->
    (forall w', fst (streamlit_refer.get_text_chunks L docs w')
                = Done chunks) ->
    HuggingFaceEmbeddings L "jhgan/ko-sroberta-multitask" "cpu" true
    = Ok emb ->
    FAISS_from_documents L chunks emb = Ok vs ->
    ChatOpenAI L (openai_api_key i) "gpt-3.5-turbo" 0 = Ok llm ->
    as_retriever L vs "mmr" = Ok ret ->
    ConversationBufferMemory L "chat_history" "answer" = Ok mem ->
    from_llm L llm "stuff" ret mem = Ok chain ->
    fst (streamlit_refer.process_files L i w) = Done tt
    /\ ss (snd (streamlit_refer.process_files L i w))
       = set_processComplete true (set_conversation (Some chain) (ss w)).
Proof.
  intros L [files key p q] w docs chunks emb vs llm ret mem chain.
  simpl. intros Hkey Hfiles Hdocs Hchunks Hemb Hvs Hllm Hret Hmem Hchain.
  destruct key as [|a key]; [contradiction|].
  destruct files as [|f files]; [contradiction|].
  pose proof (@eq_refl (session_state (Chain L))) as Hrefl.
  pose proof (@eq_trans (session_state (Chain L))) as Htrans.
  unfold streamlit_refer.process_files. cbn [openai_api_key uploaded_files].
  do 3 step.
  pose proof (refer_keeps_get_text L eq Hrefl Htrans (f :: files) w) as Hs1.
  specialize (Hdocs w).
  destruct (streamlit_refer.get_text L (f :: files) w) as [o1 w1] eqn:E1.
  simpl in Hs1, Hdocs. subst o1.
  rewrite (bind_done _ _ _ _ _ E1). step.
  pose proof (refer_keeps_get_text_chunks L eq Hrefl Htrans docs w1) as Hs2.
  specialize (Hchunks w1).
  destruct (streamlit_refer.get_text_chunks L docs w1) as [o2 w2] eqn:E2.
  simpl in Hs2, Hchunks. subst o2.
  rewrite (bind_done _ _ _ _ _ E2). step.
  rewrite (bind_done _ _ _ _ _
             (refer_get_vectorstore_ok L chunks emb vs _ Hemb Hvs)).
  step.
  rewrite (bind_done _ _ _ _ _
             (refer_get_conversation_chain_ok L vs _ llm ret mem chain _
                Hllm Hret Hmem Hchain)).
  step. cbn. split; [reflexivity|]. now rewrite <- Hs2, <- Hs1.
Qed.

Lemma refer_process_builds_the_chain_witness :
  let w := mkWorld (@fresh nat) [] in
  let r := streamlit_refer.process_files Demo.lib
             (mkInputs [Demo.csv] "sk" true "") w in
  fst r = Done tt
  /\ ss (snd r) = set_processComplete true (set_conversation (Some 0) fresh).
Proof.
  intros w r.
  apply (refer_process_builds_the_chain
           Demo.lib (mkInputs [Demo.csv] "sk" true "") w
           [PDoc (mkDocument ("a b" ++ Pandas.LF ++ "x y")
                             [("source", "table.csv")])]
           [mkDocument ("a b" ++ Pandas.LF ++ "x y")
                       [("source", "table.csv")]]
           tt tt tt tt tt 0).
  - discriminate.
  - discriminate.
  - intros w'. reflexivity.
  - intros w'. reflexivity.
  - reflexivity.
  - reflexivity.
  - reflexivity.
  - reflexivity.
  - reflexivity.
  - reflexivity.
Defined.

(** ** Questions that go wrong *)

Ltac normal_session :=
  cbn [ss trace init_messages init_processComplete init_chat_history
          init_conversation set_messages set_conversation
          set_chat_history set_processComplete messages conversation
          chat_history processComplete transcript].

Lemma getitem_error d key e : getitem d key = Err e -> e = KeyError key.
Proof.
  induction d as [|[k v] d IH]; simpl.
  - now intros [= <-].
  - destruct (k =? key); [discriminate|exact IH].
Qed.

Section FailingTurns.
Context (L : Lib).

Lemma call_chain_error c question e (w : world (session_state (Chain L))) :
  chain_call L c question = Err e ->
  call_chain L (Some c) question w
  = (Raised e, mkWorld (ss w) (trace w ++ [EvCall "chain"])).
Proof.
  intros E. unfold call_chain. step. unfold lift. rewrite E. reflexivity.
Qed.

Lemma refer_chat_chain_error q c e ms h p
      (w : world (session_state (Chain L))) :
  ss w = mkSession (Some (Some c)) h p (Some ms) ->
  chain_call L c q = Err e ->
  fst (streamlit_refer.chat L q w) = Raised e
  /\ messages (ss (snd (streamlit_refer.chat L q w)))
     = Some (ms ++ [mkMessage "user" q])%list.
Proof.
  destruct w as [s0 tr]. simpl. intros -> E.
  unfold streamlit_refer.chat. do 6 step.
  rewrite (bind_raised _ _ _ _ _ (call_chain_error _ _ _ _ E)).
  split; reflexivity.
Qed.

Lemma test_chat_chain_error q c e ms h
      (w : world (session_state (Chain L))) :
  ss w = mkSession (Some (Some c)) h (Some true) (Some ms) ->
  chain_call L c q = Err e ->
  fst (test.chat L q w) = Raised e
  /\ messages (ss (snd (test.chat L q w)))
     = Some (ms ++ [mkMessage "user" q])%list.
Proof.
  destruct w as [s0 tr]. simpl. intros -> E.
  unfold test.chat. do 2 step. cbn match. do 2 step.
  rewrite (bind_raised _ _ _ _ _ (call_chain_error _ _ _ _ E)).
  split; reflexivity.
Qed.

Lemma test_cite_loop_unlabelled shown d rest
      (w : world (session_state (Chain L))) :
  Forall (fun x => source_of x <> None) shown ->
  source_of d = None ->
  for_each (shown ++ d :: rest) (fun doc =>
    test.name_ L "st" ;;
    source <- lift (getitem (metadata doc) "source") ;;
    emit (EvMarkdown ("- **Source**: " ++ source) None) ;;
    test.st_ L (EvMarkdown ("```" ++ page_content doc ++ "```") None)) w
  = (Raised (KeyError "source"),
     mkWorld (ss w) (trace w ++ flat_map (fun x => test_cites (label_of x) x)
                                         shown)).
Proof.
  intros Hshown Hd. revert w.
  induction Hshown as [|x shown Hx _ IH]; intros w;
    cbn [app for_each flat_map].
  - unfold source_of in Hd.
    destruct (getitem (metadata d) "source") as [label|e] eqn:E;
      [discriminate|].
    apply getitem_error in E as ->.
    rewrite app_nil_r. destruct w as [s0 tr]. reflexivity.
  - assert (E : getitem (metadata x) "source" = Ok (label_of x)).
    { unfold label_of, source_of in *.
      destruct (getitem (metadata x) "source"); [reflexivity|contradiction]. }
    erewrite bind_done.
    2:{ step. rewrite E. do 2 step. reflexivity. }
    rewrite IH. cbn [ss trace]. unfold test_cites.
    now rewrite <- !app_assoc.
Qed.

End FailingTurns.

(** X10.  When the chain call for a question raises, the run ends in that
    exception and the question stays in the transcript as its last
    entry, with no answer paired to it; in both scripts. *)
Theorem failed_chain_call_leaves_question_unanswered :
  forall (L : Lib) (i : inputs) (s : session_state (Chain L))
         (c : Chain L) (e : exn),
    process i = false ->
    query i <> "" ->
    conversation s = Some (Some c) ->
    chain_call L c (query i) = Err e ->
    (StreamlitChatMessageHistory L "chat_messages" = Ok tt ->
     let out := run (streamlit_refer.main L i) s in
     fst out = Raised e
     /\ messages (ss (snd out))
        = Some (transcript (init_messages streamlit_refer.greeting s)
                ++ [mkMessage "user" (query i)])%list)
    /\ (processComplete s = Some true ->
        let out := run (test.main L i) s in
        fst out = Raised e
        /\ messages (ss (snd out))
           = Some (transcript (init_messages test.greeting s)
                   ++ [mkMessage "user" (query i)])%list).
Proof.
  intros L [files key p q] s c e Hp Hq Hc Hcall.
  simpl in Hp, Hq, Hcall |- *. subst p.
  destruct q as [|a q]; [contradiction|]. split.
  - intros Hh. unfold run, streamlit_refer.main. cbn [process query when].
    destruct s as [conv [h|] [p|] [ms|]]; simpl in Hc; subst conv.
    all: do 8 step; cbn [ss trace].
    all: rewrite (bind_done _ _ _ _ _ (refer_display_loop L _ _)).
    all: rewrite Hh; step.
    all: change (when (truthy_str (String a q)) ?m) with m.
    all: normal_session.
    all: eapply refer_chat_chain_error; [reflexivity|exact Hcall].
  - intros Hpc. unfold run, test.main. cbn [process query when].
    destruct s as [conv [h|] pc [ms|]]; simpl in Hc, Hpc; subst conv pc.
    all: do 8 step; cbn [ss trace].
    all: rewrite (bind_done _ _ _ _ _ (test_display_loop L _ _)).
    all: step.
    all: change (when true ?m) with m.
    all: change (when (truthy_str (String a q)) ?m) with m.
    all: normal_session.
    all: eapply test_chat_chain_error; [reflexivity|exact Hcall].
Qed.

Lemma failed_chain_call_leaves_question_unanswered_witness :
  let L := Demo.with_chain Demo.refused in
  let i := mkInputs [] "" false "hi" in
  let e := LibraryError "openai" "RateLimitError" in
  (let out := run (streamlit_refer.main L i)
                  (Demo.processed streamlit_refer.greeting) in
   fst out = Raised e
   /\ messages (ss (snd out))
      = Some [streamlit_refer.greeting; mkMessage "user" "hi"])
  /\ (let out := run (test.main L i) (Demo.processed test.greeting) in
      fst out = Raised e
      /\ messages (ss (snd out))
         = Some [test.greeting; mkMessage "user" "hi"]).
Proof.
  intros L i e. split.
  - apply (failed_chain_call_leaves_question_unanswered
             L i (Demo.processed streamlit_refer.greeting) 0 e);
      [reflexivity|discriminate|reflexivity|reflexivity|reflexivity].
  - apply (failed_chain_call_leaves_question_unanswered
             L i (Demo.processed test.greeting) 0 e);
      [reflexivity|discriminate|reflexivity|reflexivity|reflexivity].
Defined.

(** X11.  In [test.py] the answer is stored before the sources are shown: when
    a retrieved chunk has no [source] in its metadata, the run ends in
    [KeyError] after the labels of the chunks before it were shown, and
    the transcript already holds the question and the answer. *)
Theorem chunk_without_source_raises_after_the_answer :
  forall (L : Lib) (i : inputs) (s : session_state (Chain L))
         (c c' : Chain L) (r : ChainResult)
         (shown rest : list Document) (d : Document),
    process i = false ->
    query i <> "" ->
    processComplete s = Some true ->
    conversation s = Some (Some c) ->
    chain_call L c (query i) = Ok (r, c') ->
    source_documents r = (shown ++ d :: rest)%list ->
    Forall (fun x => source_of x <> None) shown ->
    source_of d = None ->
    let out := run (test.main L i) s in
    fst out = Raised (KeyError "source")
    /\ cited (trace (snd out)) = map label_of shown
    /\ messages (ss (snd out))
       = Some (transcript (init_messages test.greeting s)
               ++ [mkMessage "user" (query i);
                   mkMessage "assistant" (answer r)])%list.
Proof.
  intros L [files key p q] s c c' r shown rest d Hp Hq Hpc Hc Hcall
         Hdocs Hshown Hd.
  simpl in Hp, Hq, Hcall |- *. subst p.
  destruct q as [|a q]; [contradiction|].
  unfold run, test.main. cbn [process query when].
  destruct s as [conv [h|] pc [ms|]]; simpl in Hc, Hpc; subst conv pc.
  all: do 8 step; cbn [ss trace].
  all: rewrite (bind_done _ _ _ _ _ (test_display_loop L _ _)).
  all: step.
  all: change (when true ?m) with m.
  all: change (when (truthy_str (String a q)) ?m) with m.
  all: normal_session.
  all: unfold test.chat; do 2 step; cbn match; do 2 step.
  all: rewrite (bind_done _ _ _ _ _ (call_chain_ok L _ _ _ _ _ Hcall)).
  all: do 2 step; rewrite Hdocs.
  all: rewrite (test_cite_loop_unlabelled L shown d rest _ Hshown Hd).
  all: cbn [fst snd ss trace messages set_messages set_conversation
              conversation chat_history processComplete].
  all: split; [reflexivity|split].
  all: try (rewrite !cited_app, cited_shown, cited_cites; reflexivity).
  all: now rewrite <- app_assoc.
Qed.

Lemma chunk_without_source_raises_after_the_answer_witness :
  let L := Demo.with_chain Demo.unlabelled in
  let out := run (test.main L (mkInputs [] "" false "hi"))
                 (Demo.processed test.greeting) in
  fst out = Raised (KeyError "source")
  /\ cited (trace (snd out)) = ["report.pdf"]
  /\ messages (ss (snd out))
     = Some [test.greeting; mkMessage "user" "hi";
             mkMessage "assistant" "yes"].
Proof.
  intros L out.
  apply (chunk_without_source_raises_after_the_answer
           L (mkInputs [] "" false "hi") (Demo.processed test.greeting) 0 1
           (mkChainResult "yes"
              [Demo.page "report.pdf" "first chunk";
               mkDocument "table text" []] [])
           [Demo.page "report.pdf" "first chunk"] []
           (mkDocument "table text" [])).
  - reflexivity.
  - discriminate.
  - reflexivity.
  - reflexivity.
  - reflexivity.
  - reflexivity.
  - repeat constructor. discriminate.
  - reflexivity.
Defined.

(** ** Questions before a Process, in general *)

(** X12.  [test.py] asks nothing until a Process has completed: a run without
    the Process button in a session where [processComplete] is not [True]
    ends normally whatever the question field holds, calls no chain, and
    leaves the session state as the defaults and the seeded greeting
    make it. *)
Theorem test_ignores_questions_until_processed :
  forall (L : Lib) (i : inputs) (s : session_state (Chain L)),
    process i = false ->
    processComplete s <> Some true ->
    let out := run (test.main L i) s in
    fst out = Done tt
    /\ called_chain (trace (snd out)) = false
    /\ ss (snd out)
       = init_processComplete
           (init_chat_history
              (init_conversation (init_messages test.greeting s))).
Proof.
  intros L [files key p q] s Hp Hpc. simpl in Hp. subst p.
  unfold run, test.main. cbn [process query when].
  destruct s as [[conv|] [h|] [[|]|] [ms|]]; try (now destruct Hpc).
  all: do 8 step; cbn [ss trace].
  all: rewrite (bind_done _ _ _ _ _ (test_display_loop L _ _)).
  all: step.
  all: change (when false ?m) with (@ret (session_state (Chain L)) unit tt).
  all: cbn; repeat split.
  all: unfold called_chain; rewrite ?existsb_app; cbn.
  all: apply called_chain_shown.
Qed.

Lemma test_ignores_questions_until_processed_witness :
  let out := run (test.main Demo.lib (mkInputs [] "" false "anyone there?"))
                 fresh in
  fst out = Done tt
  /\ called_chain (trace (snd out)) = false
  /\ ss (snd out)
     = mkSession (Some None) (Some []) (Some false) (Some [test.greeting]).
Proof.
  apply (test_ignores_questions_until_processed
           Demo.lib (mkInputs [] "" false "anyone there?") fresh).
  - reflexivity.
  - discriminate.
Defined.

(** X13.  [streamlit_refer.py] takes a question at any time: in a session
    without a chain every question ends the run in the [TypeError] of
    calling [None], after the question was added to the transcript and
    before any chain call. *)
Theorem refer_question_without_chain_always_raises :
  forall (L : Lib) (i : inputs) (s : session_state (Chain L)),
    process i = false ->
    query i <> "" ->
    conversation s = None \/ conversation s = Some None ->
    StreamlitChatMessageHistory L "chat_messages" = Ok tt ->
    let out := run (streamlit_refer.main L i) s in
    fst out = Raised (TypeError "'NoneType' object is not callable")
    /\ called_chain (trace (snd out)) = false
    /\ messages (ss (snd out))
       = Some (transcript (init_messages streamlit_refer.greeting s)
               ++ [mkMessage "user" (query i)])%list.
Proof.
  intros L [files key p q] s Hp Hq Hc Hh. simpl in Hp, Hq |- *. subst p.
  destruct q as [|a q]; [contradiction|].
  unfold run, streamlit_refer.main. cbn [process query when].
  destruct s as [conv [h|] [pc|] [ms|]]; simpl in Hc;
    destruct Hc as [-> | ->].
  all: do 8 step; cbn [ss trace].
  all: rewrite (bind_done _ _ _ _ _ (refer_display_loop L _ _)).
  all: rewrite Hh; step.
  all: change (when (truthy_str (String a q)) ?m) with m.
  all: unfold streamlit_refer.chat; do 6 step.
  all: cbn; repeat split.
  all: unfold called_chain; rewrite ?existsb_app; cbn.
  all: rewrite ?orb_false_r.
  all: induction ms as [|m ms IH]; [reflexivity|exact IH].
Qed.

Lemma refer_question_without_chain_always_raises_witness :
  let out := run (streamlit_refer.main Demo.lib
                    (mkInputs [] "" false "anyone there?")) fresh in
  fst out = Raised (TypeError "'NoneType' object is not callable")
  /\ called_chain (trace (snd out)) = false
  /\ messages (ss (snd out))
     = Some [streamlit_refer.greeting; mkMessage "user" "anyone there?"].
Proof.
  apply (refer_question_without_chain_always_raises
           Demo.lib (mkInputs [] "" false "anyone there?") fresh).
  - reflexivity.
  - discriminate.
  - now left.
  - reflexivity.
Defined.

(** ** Chunking in streamlit_refer.py *)

Section ReferChunking.
Context (L : Lib) (tokens : string -> list nat).
Hypothesis encodes :
  forall text, tiktoken_encode L "cl100k_base" text = Ok (tokens text).

Lemma refer_run_splitting_counts (t : Splitting (list Document)) :
  forall w : world (session_state (Chain L)),
    fst (run_splitting (streamlit_refer.tiktoken_len L) t w)
    = match splitting_result (fun text => length (tokens text)) t with
      | Ok chunks => Done chunks
      | Err e => Raised e
      end.
Proof.
  induction t as [r|e|text k IH]; intros w; cbn [run_splitting splitting_result].
  - reflexivity.
  - reflexivity.
  - rewrite (bind_done _ _ _ _ _
               (refer_tiktoken_len_counts_tokens L text _ w (encodes text))).
    apply IH.
Qed.

End ReferChunking.

(** X14.  In [streamlit_refer.py] the chunks are the splitter's answer to the
    [cl100k_base] token counts: when the encoder accepts every text, the
    lengths the splitter gets are the numbers of tokens, and
    [get_text_chunks] returns what the splitter returns for them, or
    raises what the splitter raises. *)
Theorem refer_chunking_follows_token_counts :
  forall (L : Lib) (tokens : string -> list nat) (docs : list pyobj)
         (w : world (session_state (Chain L))),
    (forall text, tiktoken_encode L "cl100k_base" text = Ok (tokens text)) ->
    fst (streamlit_refer.get_text_chunks L docs w)
    = match splitting_result (fun text => length (tokens text))
                             (split_documents L 900 100 docs) with
      | Ok chunks => Done chunks
      | Err e => Raised e
      end.
Proof.
  intros L tokens docs w Hencodes.
  destruct (get_text_chunks_configuration L docs w) as [-> _].
  now apply refer_run_splitting_counts.
Qed.

Lemma refer_chunking_follows_token_counts_witness :
  let docs := [PDoc (Demo.page "upload.pdf" "%PDF")] in
  fst (streamlit_refer.get_text_chunks Demo.lib docs (mkWorld fresh []))
  = Done [Demo.page "upload.pdf" "%PDF"].
Proof.
  intros docs.
  apply (refer_chunking_follows_token_counts
           Demo.lib (fun text => map nat_of_ascii (list_ascii_of_string text))
           docs (mkWorld fresh [])).
  intros text. reflexivity.
Defined.
